(** * Dwg_to_hybrid: a shallow embedding of [DWGConverter]

    The program locates two external tools, scans every drive for drawing
    files, lets the user pick one by number and runs two child processes
    in sequence.  Everything it does goes through the operating system, so
    the embedding is a state-passing model: a [State] holds the machine
    (volumes, current directory, console input, the behaviour of the child
    processes started next, a log of the system calls made) together with
    the private fields of the [DWGConverter] object.

    Conventions of the model:
    - file names are strings of 8-bit characters, compared exactly and
      ordered character by character;
    - the order in which a directory lists its entries is the order of the
      children in the tree;
    - [fs::exists] and [fs::create_directories] do not raise; the only
      exception modelled is the [filesystem_error] of a directory iterator,
      which the program catches;
    - console output other than the numbered listing is left out, and so
      are the handles closed after a wait. *)

From Stdlib Require Import List String Ascii ZArith Bool Lia Sorted Permutation.
Import ListNotations.

Set Warnings "-register-all".

Local Open Scope string_scope.
Local Open Scope list_scope.

(** ** Paths ([std::filesystem::path]) *)

Module Path.

(** A path is its root (["D:\"], or empty for a relative path) followed by
    the file names of its relative part. *)
Record path : Type := mkpath { root : string; elems : list string }.

Definition empty_path : path := mkpath EmptyString [].

Definition empty (p : path) : bool :=
  String.eqb (root p) EmptyString && match elems p with [] => true | _ => false end.

(** [p / name] for a plain file name. *)
Definition append (p : path) (name : string) : path :=
  mkpath (root p) (elems p ++ [name]).

(** [parent_path]: the path itself when it has no relative part. *)
Definition parent_path (p : path) : path :=
  match elems p with
  | [] => p
  | _ :: _ => mkpath (root p) (removelast (elems p))
  end.

Definition has_parent_path (p : path) : bool := negb (empty (parent_path p)).

Definition filename (p : path) : string := last (elems p) EmptyString.

(** Splits a name at its rightmost period: [Some (before, from_period)]. *)
Fixpoint split_last_dot (s : string) : option (string * string) :=
  match s with
  | EmptyString => None
  | String c r =>
      match split_last_dot r with
      | Some (b, e) => Some (String c b, e)
      | None => if Ascii.eqb c "." then Some (EmptyString, s) else None
      end
  end.

(** [extension] of a file name: from the rightmost period to the end;
    empty for "." and "..", and a leading period does not count. *)
Definition name_extension (f : string) : string :=
  if String.eqb f "." || String.eqb f ".." then EmptyString
  else match f with
       | EmptyString => EmptyString
       | String c r =>
           if Ascii.eqb c "."
           then match split_last_dot r with Some (_, e) => e | None => EmptyString end
           else match split_last_dot f with Some (_, e) => e | None => EmptyString end
       end.

Definition name_stem (f : string) : string :=
  if String.eqb f "." || String.eqb f ".." then f
  else match f with
       | EmptyString => EmptyString
       | String c r =>
           if Ascii.eqb c "."
           then match split_last_dot r with
                | Some (b, _) => String c b
                | None => f
                end
           else match split_last_dot f with Some (b, _) => b | None => f end
       end.

Definition extension (p : path) : string := name_extension (filename p).
Definition stem (p : path) : string := name_stem (filename p).

Fixpoint list_eqb (l1 l2 : list string) : bool :=
  match l1, l2 with
  | [], [] => true
  | a :: l1', b :: l2' => String.eqb a b && list_eqb l1' l2'
  | _, _ => false
  end.

Definition eqb (p q : path) : bool :=
  String.eqb (root p) (root q) && list_eqb (elems p) (elems q).

(** [path::compare]: the roots first, then the file names one by one. *)
Fixpoint compare_elems (l1 l2 : list string) : comparison :=
  match l1, l2 with
  | [], [] => Eq
  | [], _ :: _ => Lt
  | _ :: _, [] => Gt
  | a :: l1', b :: l2' =>
      match String.compare a b with
      | Eq => compare_elems l1' l2'
      | c => c
      end
  end.

Definition compare (p q : path) : comparison :=
  match String.compare (root p) (root q) with
  | Eq => compare_elems (elems p) (elems q)
  | c => c
  end.

Definition ltb (p q : path) : bool :=
  match compare p q with Lt => true | _ => false end.

Fixpoint join (sep : string) (l : list string) : string :=
  match l with
  | [] => EmptyString
  | [a] => a
  | a :: l' => a ++ sep ++ join sep l'
  end.

(** The native string of a path, as [wstring()] gives it. *)
Definition wstring (p : path) : string := root p ++ join "\" (elems p).

End Path.

Import Path.

Notation "p // name" := (Path.append p name) (at level 40, left associativity).

(** ** The file system *)

(** How opening a directory for iteration ends: normally, with a
    permission error (which [skip_permission_denied] skips), or with
    another error (which raises [filesystem_error]). *)
Inductive dir_access : Type := Readable | Denied | Faulty.

Inductive node : Type :=
| File (name : string)                       (* a regular file *)
| Other (name : string)                      (* neither regular file nor directory *)
| Dir (name : string) (acc : dir_access) (children : list node).

Definition node_name (n : node) : string :=
  match n with File nm | Other nm | Dir nm _ _ => nm end.

Inductive file_type : Type := regular | directory | other_type.

Record directory_entry : Type :=
  mkentry { entry_path : path; entry_type : file_type }.

Definition is_regular_file (e : directory_entry) : bool :=
  match entry_type e with regular => true | _ => false end.

(** Pre-order traversal of what lies under [dir], in directory order: the
    entries seen, and [false] when the traversal ended by raising. A
    directory is seen before the attempt to open it. *)
Fixpoint walk_node (dir : path) (n : node) {struct n} : list directory_entry * bool :=
  match n with
  | File nm => ([mkentry (dir // nm) regular], true)
  | Other nm => ([mkentry (dir // nm) other_type], true)
  | Dir nm acc cs =>
      let me := dir // nm in
      match acc with
      | Readable =>
          let fix walk_children (l : list node) : list directory_entry * bool :=
            match l with
            | [] => ([], true)
            | c :: l' =>
                let (es, ok) := walk_node me c in
                if ok
                then let (es', ok') := walk_children l' in (es ++ es', ok')
                else (es, false)
            end in
          let (es, ok) := walk_children cs in
          (mkentry me directory :: es, ok)
      | Denied => ([mkentry me directory], true)
      | Faulty => ([mkentry me directory], false)
      end
  end.

Fixpoint walk_nodes (dir : path) (l : list node) : list directory_entry * bool :=
  match l with
  | [] => ([], true)
  | c :: l' =>
      let (es, ok) := walk_node dir c in
      if ok
      then let (es', ok') := walk_nodes dir l' in (es ++ es', ok')
      else (es, false)
  end.

(** Does the relative part [comps] lead to something below [cs]?  Names
    are compared exactly. *)
Fixpoint lookup (comps : list string) (cs : list node) {struct comps} : bool :=
  match comps with
  | [] => true
  | c :: rest =>
      match find (fun n => String.eqb (node_name n) c) cs with
      | Some (Dir _ _ ch) => lookup rest ch
      | Some _ => match rest with [] => true | _ :: _ => false end
      | None => false
      end
  end.

(** Creates what is missing along [comps]; the last name becomes [leaf]. *)
Fixpoint make_path (leaf : string -> node) (comps : list string) (cs : list node)
  {struct comps} : list node :=
  match comps with
  | [] => cs
  | c :: rest =>
      if existsb (fun n => String.eqb (node_name n) c) cs
      then map (fun n =>
                  match n with
                  | Dir nm a ch =>
                      if String.eqb nm c then Dir nm a (make_path leaf rest ch) else n
                  | _ => n
                  end) cs
      else cs ++ [match rest with
                  | [] => leaf c
                  | _ :: _ => Dir c Readable (make_path leaf rest [])
                  end]
  end.

Inductive drive_type : Type :=
| DRIVE_UNKNOWN | DRIVE_NO_ROOT_DIR | DRIVE_REMOVABLE | DRIVE_FIXED
| DRIVE_REMOTE | DRIVE_CDROM | DRIVE_RAMDISK.

(** A lettered volume: its type, whether the free-space query succeeds,
    how opening its root ends, and what it holds. *)
Record Volume : Type := mkVolume {
  v_letter : ascii;
  v_type : drive_type;
  v_ready : bool;
  v_access : dir_access;
  v_children : list node
}.

Definition drive_string (letter : ascii) : string := String letter ":\".

(** ** The machine *)

(** What a started child process does while the program waits for it: the
    files it has written by then, and whether it has exited (with which
    code) or is still running when the wait gives up. *)
Inductive Child : Type :=
| Exits (code : Z) (writes : list path)
| Hangs (writes : list path).

(** The system calls that reach outside the process. *)
Inductive Event : Type :=
| EvGetLogicalDrives
| EvIterate (drive : string)
| EvCreateDirectories (p : path)
| EvCreateProcess (cmd : string) (dir : option path)
| EvWait (ms : Z)
| EvListing (lines : list (Z * path)).

Record Machine : Type := mkMachine {
  volumes : list Volume;
  current_path : path;
  cin : list Z;                      (* the numbers typed, one per extraction *)
  children : list (option Child);    (* [None]: the process cannot be started *)
  log : list Event
}.

Definition emit (e : Event) (m : Machine) : Machine :=
  mkMachine (volumes m) (current_path m) (cin m) (children m) (log m ++ [e]).

Definition with_volumes (vs : list Volume) (m : Machine) : Machine :=
  mkMachine vs (current_path m) (cin m) (children m) (log m).

Definition find_volume (m : Machine) (r : string) : option Volume :=
  find (fun v => String.eqb (drive_string (v_letter v)) r) (volumes m).

Definition letter_bit (c : ascii) : Z :=
  let i := (Z.of_nat (nat_of_ascii c) - 65)%Z in
  if (0 <=? i)%Z && (i <? 26)%Z then Z.shiftl 1 i else 0%Z.

(** The bitmask of the drive letters in use. *)
Definition GetLogicalDrives (m : Machine) : Z * Machine :=
  (fold_right (fun v acc => Z.lor (letter_bit (v_letter v)) acc) 0%Z (volumes m),
   emit EvGetLogicalDrives m).

Definition GetDriveTypeA (m : Machine) (r : string) : drive_type :=
  match find_volume m r with
  | Some v => v_type v
  | None => DRIVE_NO_ROOT_DIR
  end.

Definition GetDiskFreeSpaceA (m : Machine) (r : string) : bool :=
  match find_volume m r with
  | Some v => v_ready v
  | None => false
  end.

(** [fs::exists]. *)
Definition fs_exists (m : Machine) (p : path) : bool :=
  match find_volume m (root p) with
  | Some v => lookup (elems p) (v_children v)
  | None => false
  end.

(** [fs::recursive_directory_iterator(drive, skip_permission_denied)]
    run to its end: the entries it yields, and [false] when it raised. *)
Definition recursive_directory_iterator (drive : string) (m : Machine)
  : (list directory_entry * bool) * Machine :=
  (match find_volume m drive with
   | Some v =>
       match v_access v with
       | Readable => walk_nodes (mkpath drive []) (v_children v)
       | Denied => ([], true)
       | Faulty => ([], false)
       end
   | None => ([], false)
   end, emit (EvIterate drive) m).

Definition put_path (leaf : string -> node) (p : path) (vs : list Volume) : list Volume :=
  map (fun v =>
         if String.eqb (drive_string (v_letter v)) (root p)
         then mkVolume (v_letter v) (v_type v) (v_ready v) (v_access v)
                (make_path leaf (elems p) (v_children v))
         else v) vs.

(** [fs::create_directories], taken to succeed. *)
Definition create_directories (p : path) (m : Machine) : unit * Machine :=
  (tt, emit (EvCreateDirectories p)
         (with_volumes (put_path (fun nm => Dir nm Readable []) p (volumes m)) m)).

(** [CreateProcessW]: the handle of the child, when it starts. *)
Definition CreateProcessW (cmd : string) (dir : option path) (m : Machine)
  : option Child * Machine :=
  let m' := emit (EvCreateProcess cmd dir) m in
  match children m with
  | [] => (None, m')
  | c :: rest =>
      (c, mkMachine (volumes m') (current_path m') (cin m') rest (log m'))
  end.

Definition child_writes (c : Child) : list path :=
  match c with Exits _ ws | Hangs ws => ws end.

Inductive wait_result : Type := WAIT_OBJECT_0 | WAIT_TIMEOUT.

(** [WaitForSingleObject]: by the time it returns the child has written
    its files. *)
Definition WaitForSingleObject (c : Child) (ms : Z) (m : Machine)
  : wait_result * Machine :=
  (match c with Exits _ _ => WAIT_OBJECT_0 | Hangs _ => WAIT_TIMEOUT end,
   emit (EvWait ms)
     (with_volumes (fold_left (fun vs p => put_path File p vs) (child_writes c)
                      (volumes m)) m)).

Definition STILL_ACTIVE : Z := 259.

Definition GetExitCodeProcess (c : Child) : Z :=
  match c with Exits code _ => code | Hangs _ => STILL_ACTIVE end.

Definition INT_MAX : Z := 2147483647.
Definition INT_MIN : Z := -2147483648.

(** [std::cin >> choice]: the value stored, 0 when nothing can be read and
    the nearest bound when the number does not fit. *)
Definition cin_int (m : Machine) : Z * Machine :=
  match cin m with
  | [] => (0%Z, m)
  | z :: rest =>
      (Z.max INT_MIN (Z.min INT_MAX z),
       mkMachine (volumes m) (current_path m) rest (children m) (log m))
  end.

(** ** The object and the state monad *)

Record DWGConverter : Type := mkDWGConverter {
  oda_converter_path : path;
  python_renderer_path : path;
  output_dxf_dir : path;
  output_pdf_dir : path;
  all_dwg_files : list path
}.

Record State : Type := mkState { machine : Machine; self : DWGConverter }.

Definition M (A : Type) : Type := State -> A * State.

Definition ret {A : Type} (a : A) : M A := fun s => (a, s).

Definition bind {A B : Type} (c : M A) (k : A -> M B) : M B :=
  fun s => let (a, s') := c s in k a s'.

Notation "x <- c ;; k" := (bind c (fun x => k))
  (at level 61, c at next level, right associativity).
Notation "c ;;; k" := (bind c (fun _ => k))
  (at level 61, right associativity).

(** A system call. *)
Definition sys {A : Type} (f : Machine -> A * Machine) : M A :=
  fun s => let (a, m') := f (machine s) in (a, mkState m' (self s)).

(** A query that leaves the machine as it is. *)
Definition ask {A : Type} (f : Machine -> A) : M A :=
  fun s => (f (machine s), s).

Definition field {A : Type} (f : DWGConverter -> A) : M A :=
  fun s => (f (self s), s).

Definition update (f : DWGConverter -> DWGConverter) : M unit :=
  fun s => (tt, mkState (machine s) (f (self s))).

Definition set_oda_converter_path (p : path) (o : DWGConverter) : DWGConverter :=
  mkDWGConverter p (python_renderer_path o) (output_dxf_dir o) (output_pdf_dir o)
    (all_dwg_files o).

Definition set_python_renderer_path (p : path) (o : DWGConverter) : DWGConverter :=
  mkDWGConverter (oda_converter_path o) p (output_dxf_dir o) (output_pdf_dir o)
    (all_dwg_files o).

Definition set_output_dxf_dir (p : path) (o : DWGConverter) : DWGConverter :=
  mkDWGConverter (oda_converter_path o) (python_renderer_path o) p (output_pdf_dir o)
    (all_dwg_files o).

Definition set_output_pdf_dir (p : path) (o : DWGConverter) : DWGConverter :=
  mkDWGConverter (oda_converter_path o) (python_renderer_path o) (output_dxf_dir o) p
    (all_dwg_files o).

Definition set_all_dwg_files (l : list path) (o : DWGConverter) : DWGConverter :=
  mkDWGConverter (oda_converter_path o) (python_renderer_path o) (output_dxf_dir o)
    (output_pdf_dir o) l.

(** ** [DWGConverter] *)

Definition is_fixed_or_removable (t : drive_type) : bool :=
  match t with DRIVE_FIXED | DRIVE_REMOVABLE => true | _ => false end.

(** The loop of [getAvailableDrives]: letters 'A' to 'Z', the mask
    shifted right once per letter. *)
Fixpoint drives_loop (m : Machine) (letters : nat) (drive : nat) (drives_mask : Z)
  (drives : list string) : list string :=
  match letters with
  | O => drives
  | S letters' =>
      let drives' :=
        if Z.eqb (Z.land drives_mask 1) 0 then drives
        else
          let drive_path := drive_string (ascii_of_nat drive) in
          if is_fixed_or_removable (GetDriveTypeA m drive_path)
          then if GetDiskFreeSpaceA m drive_path
               then drives ++ [drive_path]
               else drives
          else drives in
      drives_loop m letters' (S drive) (Z.shiftr drives_mask 1) drives'
  end.

Definition getAvailableDrives : M (list string) :=
  drives_mask <- sys GetLogicalDrives ;;
  m <- ask (fun m => m) ;;
  ret (drives_loop m 26 65 drives_mask []).

Definition oda_name : string := "ODAFileConverter.exe".

Definition has_dlls (m : Machine) (parent : path) : bool :=
  fs_exists m (parent // "TD_Db.dll") ||
  fs_exists m (parent // "TG_Db.dll") ||
  fs_exists m (parent // "TD_Root.dll").

(** The body of the drive loop of [findODAConverter] over the entries the
    iterator yields: the first regular file of the right name with a
    library beside it. *)
Fixpoint search_entries (m : Machine) (entries : list directory_entry) : option path :=
  match entries with
  | [] => None
  | entry :: rest =>
      if is_regular_file entry && String.eqb (filename (entry_path entry)) oda_name
      then
        let parent := parent_path (entry_path entry) in
        if has_dlls m parent then Some (entry_path entry)
        else search_entries m rest
      else search_entries m rest
  end.

(** One drive after the other; an iterator that raises ends its drive
    only ([catch ... continue]). *)
Fixpoint search_drives (drives : list string) : M bool :=
  match drives with
  | [] => ret false
  | drive :: rest =>
      it <- sys (recursive_directory_iterator drive) ;;
      m <- ask (fun m => m) ;;
      match search_entries m (fst it) with
      | Some p => update (set_oda_converter_path p) ;;; ret true
      | None => search_drives rest
      end
  end.

Definition findODAConverter : M bool :=
  exe_dir <- ask current_path ;;
  let parent_dir := parent_path exe_dir in
  (* Check grandparent directory *)
  let oda_in_grandparent := parent_path parent_dir // oda_name in
  in_grandparent <-
    (if has_parent_path parent_dir
     then ask (fun m => fs_exists m oda_in_grandparent)
     else ret false) ;;
  if in_grandparent
  then update (set_oda_converter_path oda_in_grandparent) ;;; ret true
  else
    (* Check parent directory *)
    let oda_in_parent := parent_dir // oda_name in
    in_parent <- ask (fun m => fs_exists m oda_in_parent) ;;
    if in_parent
    then update (set_oda_converter_path oda_in_parent) ;;; ret true
    else
      (* Check current directory *)
      let oda_in_current := exe_dir // oda_name in
      in_current <- ask (fun m => fs_exists m oda_in_current) ;;
      if in_current
      then update (set_oda_converter_path oda_in_current) ;;; ret true
      else
        drives <- getAvailableDrives ;;
        search_drives drives.

Definition renderer_name : string := "dxf_renderer.py".

Definition findPythonRenderer : M bool :=
  exe_dir <- ask current_path ;;
  (* Check current directory *)
  let renderer_in_current := exe_dir // renderer_name in
  in_current <- ask (fun m => fs_exists m renderer_in_current) ;;
  if in_current
  then update (set_python_renderer_path renderer_in_current) ;;; ret true
  else
    (* Check parent directory *)
    let parent := parent_path exe_dir in
    let renderer_in_parent := parent // renderer_name in
    in_parent <- ask (fun m => fs_exists m renderer_in_parent) ;;
    if in_parent
    then update (set_python_renderer_path renderer_in_parent) ;;; ret true
    else ret false.

Definition skip_folders : list string :=
  ["Windows"; "ProgramData"; "$Recycle.Bin"; "System Volume Information"; "Recovery"].

(** One turn of the loop of [searchDWGInDrive]: the files collected so far
    and the count.  On a name of the skip-list the loop does [continue]:
    it goes on to the next entry the iterator yields. *)
Definition scan_entry (acc : list path * Z) (entry : directory_entry) : list path * Z :=
  let folder_name := filename (entry_path entry) in
  let should_skip := existsb (String.eqb folder_name) skip_folders in
  if should_skip then acc
  else if is_regular_file entry && String.eqb (extension (entry_path entry)) ".dwg"
       then (fst acc ++ [entry_path entry], (snd acc + 1)%Z)
       else acc.

(** What is collected before the iterator raises stays collected. *)
Definition searchDWGInDrive (drive : string) : M Z :=
  it <- sys (recursive_directory_iterator drive) ;;
  files <- field all_dwg_files ;;
  let (files', count) := fold_left scan_entry (fst it) (files, 0%Z) in
  update (set_all_dwg_files files') ;;;
  ret count.

(** [std::sort] with the comparison [lt]: insertion into a sorted list.
    [std::sort] leaves the order of equivalent elements open; this one
    keeps it. *)
Fixpoint sort_insert {A : Type} (lt : A -> A -> bool) (x : A) (l : list A) : list A :=
  match l with
  | [] => [x]
  | y :: l' => if lt y x then y :: sort_insert lt x l' else x :: l
  end.

Definition std_sort {A : Type} (lt : A -> A -> bool) (l : list A) : list A :=
  fold_right (sort_insert lt) [] l.

Definition by_filename (a b : path) : bool := String.ltb (filename a) (filename b).

Fixpoint scan_drives (drives : list string) (total_found : Z) : M Z :=
  match drives with
  | [] => ret total_found
  | drive :: rest =>
      count <- searchDWGInDrive drive ;;
      scan_drives rest (total_found + count)%Z
  end.

Definition findAllDWGFiles : M unit :=
  drives <- getAvailableDrives ;;
  update (set_all_dwg_files []) ;;;
  total_found <- scan_drives drives 0%Z ;;
  files <- field all_dwg_files ;;
  update (set_all_dwg_files (std_sort by_filename files)).

(** [grouped[k].push_back(v)] on a [std::map], kept in key order. *)
Fixpoint map_push (k v : path) (grouped : list (path * list path))
  : list (path * list path) :=
  match grouped with
  | [] => [(k, [v])]
  | (k', vs) :: rest =>
      match Path.compare k k' with
      | Lt => (k, [v]) :: grouped
      | Eq => (k', vs ++ [v]) :: rest
      | Gt => (k', vs) :: map_push k v rest
      end
  end.

Definition group_by_parent (files : list path) : list (path * list path) :=
  fold_left (fun grouped file => map_push (parent_path file) file grouped) files [].

(** The inner loop of [displayDWGFiles]: the numbered lines of one
    directory, and the next number. *)
Fixpoint number_files (file_num : Z) (files : list path) : list (Z * path) * Z :=
  match files with
  | [] => ([], file_num)
  | file :: rest =>
      let (lines, n) := number_files (file_num + 1)%Z rest in
      ((file_num, file) :: lines, n)
  end.

Fixpoint number_groups (file_num : Z) (grouped : list (path * list path)) : list (Z * path) :=
  match grouped with
  | [] => []
  | (_, files) :: rest =>
      let (lines, n) := number_files file_num files in
      lines ++ number_groups n rest
  end.

(** The numbered lines shown for a candidate list. *)
Definition listing (files : list path) : list (Z * path) :=
  number_groups 1%Z (group_by_parent files).

Definition displayDWGFiles : M unit :=
  files <- field all_dwg_files ;;
  match files with
  | [] => ret tt
  | _ :: _ => sys (fun m => (tt, emit (EvListing (listing files)) m))
  end.

Definition quoted (s : string) : string :=
  String (ascii_of_nat 34) s ++ String (ascii_of_nat 34) EmptyString.

Definition convertDWGtoDXF (dwg_file : path) (output_dxf : path) : M (bool * path) :=
  update (set_output_dxf_dir (parent_path dwg_file // "convertedDXF")) ;;;
  dxf_dir <- field output_dxf_dir ;;
  sys (create_directories dxf_dir) ;;;
  oda <- field oda_converter_path ;;
  let cmd := (quoted (wstring oda) ++ " "
              ++ quoted (wstring (parent_path dwg_file)) ++ " "
              ++ quoted (wstring dxf_dir) ++ " "
              ++ "ACAD2010 DXF 0 1 "
              ++ quoted (filename dwg_file))%string in
  started <- sys (CreateProcessW cmd (Some (parent_path oda))) ;;
  match started with
  | None => ret (false, output_dxf)
  | Some pi =>
      sys (WaitForSingleObject pi 120000) ;;;
      let exit_code := GetExitCodeProcess pi in
      let output_dxf := dxf_dir // (stem dwg_file ++ ".dxf")%string in
      created <- ask (fun m => fs_exists m output_dxf) ;;
      if created then ret (true, output_dxf) else ret (false, output_dxf)
  end.

Definition renderDXFtoPDF (dxf_file dwg_file : path) : M bool :=
  update (set_output_pdf_dir (parent_path dwg_file // "convertedPDF")) ;;;
  pdf_dir <- field output_pdf_dir ;;
  sys (create_directories pdf_dir) ;;;
  let output_pdf := pdf_dir // (stem dwg_file ++ ".pdf")%string in
  renderer <- field python_renderer_path ;;
  let cmd := ("python " ++ quoted (wstring renderer) ++ " "
              ++ quoted (wstring dxf_file) ++ " "
              ++ quoted (wstring output_pdf))%string in
  started <- sys (CreateProcessW cmd None) ;;
  match started with
  | None => ret false
  | Some pi =>
      sys (WaitForSingleObject pi 300000) ;;;
      let exit_code := GetExitCodeProcess pi in
      rendered <- ask (fun m => fs_exists m output_pdf) ;;
      if Z.eqb exit_code 0 && rendered then ret true else ret false
  end.

(** The conversion of [int] to [size_t] in [choice > all_dwg_files.size()]. *)
Definition to_size_t (z : Z) : Z := (z mod 2 ^ 64)%Z.

Definition run : M bool :=
  (* Step 1: Find ODA Converter *)
  found_oda <- findODAConverter ;;
  if negb found_oda then ret false
  else
    (* Step 2: Find Python renderer *)
    found_renderer <- findPythonRenderer ;;
    if negb found_renderer then ret false
    else
      (* Step 3: Find DWG files *)
      findAllDWGFiles ;;;
      files <- field all_dwg_files ;;
      match files with
      | [] => ret false
      | _ :: _ =>
          (* Step 4: Display files *)
          displayDWGFiles ;;;
          (* Step 5: Get user selection *)
          choice <- sys cin_int ;;
          if (choice <=? 0)%Z || (to_size_t choice >? Z.of_nat (List.length files))%Z
          then ret false
          else
            (* Step 6: Process conversion *)
            let selected_file := nth (Z.to_nat (choice - 1)) files empty_path in
            conv <- convertDWGtoDXF selected_file empty_path ;;
            let (converted, dxf_file) := conv : bool * path in
            if negb converted then ret false
            else
              rendered <- renderDXFtoPDF dxf_file selected_file ;;
              if negb rendered then ret false else ret true
      end.

(** * Views of the program used in the statements *)

(** The candidate list is in ascending order of file name when each file
    name is at most the file names after it. *)
Definition filename_le (a b : path) : Prop :=
  String.leb (filename a) (filename b) = true.

(** The machine after further system calls have been logged. *)
Definition emits (evs : list Event) (m : Machine) : Machine :=
  mkMachine (volumes m) (current_path m) (cin m) (children m) (log m ++ evs).

(** The entries a walk of [drive] yields. *)
Definition entries_of (m : Machine) (drive : string) : list directory_entry :=
  fst (fst (recursive_directory_iterator drive m)).

(** The drives [getAvailableDrives] returns. *)
Definition available_drives (m : Machine) : list string :=
  drives_loop m 26 65 (fst (GetLogicalDrives m)) [].

(** The entries [searchDWGInDrive] collects, and their paths. *)
Definition is_dwg (e : directory_entry) : bool :=
  is_regular_file e && String.eqb (extension (entry_path e)) ".dwg".

Definition dwg_paths (es : list directory_entry) : list path :=
  map entry_path (filter is_dwg es).

(** What the walks of [drives] collect, drive after drive. *)
Definition scanned (m : Machine) (drives : list string) : list path :=
  flat_map (fun d => dwg_paths (entries_of m d)) drives.

(** The places [findODAConverter] looks at before any drive, in the order
    of its three checks. *)
Definition oda_nearby (m : Machine) : list path :=
  let exe_dir := current_path m in
  let parent_dir := parent_path exe_dir in
  (if has_parent_path parent_dir then [parent_path parent_dir // oda_name] else [])
  ++ [parent_dir // oda_name; exe_dir // oda_name].

(** The same places in the order the specification gives: current
    directory, parent, grandparent. *)
Definition oda_nearby_as_specified (m : Machine) : list path :=
  let exe_dir := current_path m in
  let parent_dir := parent_path exe_dir in
  [exe_dir // oda_name; parent_dir // oda_name; parent_path parent_dir // oda_name].

(** The test an entry passes in the drive loop of [findODAConverter]. *)
Definition accepted (m : Machine) (e : directory_entry) : bool :=
  is_regular_file e
  && String.eqb (filename (entry_path e)) oda_name
  && has_dlls m (parent_path (entry_path e)).

(** What the drive loop finds, and the drives it has walked by then. *)
Fixpoint search_result (m : Machine) (drives : list string) : option path * list string :=
  match drives with
  | [] => (None, [])
  | d :: rest =>
      match search_entries m (entries_of m d) with
      | Some p => (Some p, [d])
      | None => let (r, walked) := search_result m rest in (r, d :: walked)
      end
  end.

(** ** Example machines *)

Module Scenario.

Definition fresh : DWGConverter :=
  mkDWGConverter empty_path empty_path empty_path empty_path [].

Definition fixed (letter : ascii) (content : list node) : Volume :=
  mkVolume letter DRIVE_FIXED true Readable content.

Definition on_D (content : list node) (cwd : list string)
  (typed : list Z) (procs : list (option Child)) : State :=
  mkState (mkMachine [fixed "D" content] (mkpath "D:\" cwd) typed procs []) fresh.

(** The converter both in the current directory and in its grandparent. *)
Definition two_converters : State :=
  on_D [File "ODAFileConverter.exe";
        Dir "tools" Readable [Dir "bin" Readable [File "ODAFileConverter.exe"]]]
    ["tools"; "bin"] [] [].

(** The renderer script somewhere on the drive, away from the current
    directory and its parent. *)
Definition renderer_elsewhere : State :=
  on_D [Dir "scripts" Readable [File "dxf_renderer.py"];
        Dir "work" Readable [Dir "bin" Readable []]]
    ["work"; "bin"] [] [].

(** A file of the converter's name without its libraries, walked before
    a real installation. *)
Definition decoy_then_converter : State :=
  on_D [Dir "decoy" Readable [File "ODAFileConverter.exe"];
        Dir "oda" Readable [File "ODAFileConverter.exe"; File "TD_Root.dll"];
        Dir "work" Readable [Dir "bin" Readable []]]
    ["work"; "bin"] [] [].

(** The scan scenario of the specification: C:\Windows\x.dwg,
    D:\proj\a.dwg and D:\proj\b.dwg. *)
Definition windows_and_proj : State :=
  mkState
    (mkMachine
       [fixed "C" [Dir "Windows" Readable [File "x.dwg"]];
        fixed "D" [Dir "proj" Readable [File "a.dwg"; File "b.dwg"]]]
       (mkpath "D:\" ["proj"]) [] [] [])
    fresh.

Definition tools : node :=
  Dir "tools" Readable
    [File "ODAFileConverter.exe"; File "TD_Db.dll"; File "dxf_renderer.py"].

Definition located : DWGConverter :=
  mkDWGConverter (mkpath "D:\" ["tools"; "ODAFileConverter.exe"])
    (mkpath "D:\" ["tools"; "dxf_renderer.py"]) empty_path empty_path [].

(** D:\proj\a.dwg with a.dxf left in D:\proj\convertedDXF by an earlier
    run; the converter is started and behaves as [child]. *)
Definition stale_output (child : Child) : State :=
  mkState
    (mkMachine
       [fixed "D" [Dir "proj" Readable
                     [File "a.dwg"; Dir "convertedDXF" Readable [File "a.dxf"]];
                   tools]]
       (mkpath "D:\" ["tools"]) [] [Some child] [])
    located.

(** A directory that cannot be read in the middle of drive D:, and a
    second drive. *)
Definition faulty_directory : State :=
  mkState
    (mkMachine
       [fixed "D" [Dir "a" Readable [File "1.dwg"];
                   Dir "bad" Faulty [File "lost.dwg"];
                   Dir "z" Readable [File "2.dwg"]];
        fixed "E" [Dir "locked" Denied [File "hidden.dwg"]; File "3.dwg"]]
       (mkpath "D:\" []) [] [] [])
    fresh.

(** Two drawings in two directories, the tools beside the program, and
    the numbers typed. *)
Definition two_directories (typed : list Z) (procs : list (option Child)) : State :=
  on_D [Dir "a" Readable [File "z.dwg"]; Dir "b" Readable [File "a.dwg"]; tools]
    ["tools"] typed procs.

End Scenario.

(** ** The run in two parts *)

(** Steps 1 to 5 of [run]: the file selected, or [None] where [run]
    returns [false] before step 6. *)
Definition choose_file : M (option path) :=
  found_oda <- findODAConverter ;;
  if negb found_oda then ret None
  else
    found_renderer <- findPythonRenderer ;;
    if negb found_renderer then ret None
    else
      findAllDWGFiles ;;;
      files <- field all_dwg_files ;;
      match files with
      | [] => ret None
      | _ :: _ =>
          displayDWGFiles ;;;
          choice <- sys cin_int ;;
          if (choice <=? 0)%Z || (to_size_t choice >? Z.of_nat (List.length files))%Z
          then ret None
          else ret (Some (nth (Z.to_nat (choice - 1)) files empty_path))
      end.

(** Step 6 of [run]. *)
Definition convert_file (selected_file : path) : M bool :=
  conv <- convertDWGtoDXF selected_file empty_path ;;
  let (converted, dxf_file) := conv : bool * path in
  if negb converted then ret false
  else
    rendered <- renderDXFtoPDF dxf_file selected_file ;;
    if negb rendered then ret false else ret true.

(** The events of locating and scanning. *)
Definition quiet (e : Event) : Prop :=
  match e with
  | EvGetLogicalDrives | EvIterate _ | EvListing _ => True
  | _ => False
  end.

(** The events of stage 2: the directory convertedPDF made, the renderer
    started, the wait of five minutes. *)
Definition is_stage2_event (e : Event) : bool :=
  match e with
  | EvCreateDirectories p => String.eqb (filename p) "convertedPDF"
  | EvCreateProcess cmd _ => String.prefix "python " cmd
  | EvWait ms => Z.eqb ms 300000
  | _ => false
  end.

(** A step that only looks: it may log quiet events and set the tool
    paths and the candidate list, nothing else. *)
Definition quiet_step (s s' : State) : Prop :=
  volumes (machine s') = volumes (machine s)
  /\ cin (machine s') = cin (machine s)
  /\ children (machine s') = children (machine s)
  /\ output_dxf_dir (self s') = output_dxf_dir (self s)
  /\ output_pdf_dir (self s') = output_pdf_dir (self s)
  /\ exists evs, log (machine s') = log (machine s) ++ evs /\ Forall quiet evs.

(** The candidate list a scan of the machine gives. *)
Definition candidates (m : Machine) : list path :=
  std_sort by_filename (scanned m (available_drives m)).

(** ** Views used in the further properties *)

(** The places [findPythonRenderer] looks at, in the order of its checks. *)
Definition renderer_nearby (m : Machine) : list path :=
  [current_path m // renderer_name;
   parent_path (current_path m) // renderer_name].

(** The events of looking for something on the drives. *)
Definition searching (e : Event) : Prop :=
  match e with
  | EvGetLogicalDrives | EvIterate _ => True
  | _ => False
  end.


(** The numbers [n], [n + 1], ... ([k] of them). *)
Fixpoint numbers_from (n : Z) (k : nat) : list Z :=
  match k with
  | O => []
  | S k' => n :: numbers_from (n + 1)%Z k'
  end.

(** The files [grouped] holds under the directory [k]
    ([grouped.find(k)]), none when [k] is no key. *)
Definition files_under (k : path) (grouped : list (path * list path)) : list path :=
  match find (fun g => Path.eqb (fst g) k) grouped with
  | Some (_, vs) => vs
  | None => []
  end.

(** The keys of [grouped] come in strictly ascending order. *)
Definition keys_ascending (grouped : list (path * list path)) : Prop :=
  StronglySorted (fun a b => Path.ltb (fst a) (fst b) = true) grouped.

(** The command line [convertDWGtoDXF] starts for [dwg_file] with the
    converter [oda]: the converter, the directory of the drawing, the
    output directory, the format arguments and the name of the drawing. *)
Definition converter_command (oda dwg_file : path) : string :=
  (quoted (wstring oda) ++ " "
   ++ quoted (wstring (parent_path dwg_file)) ++ " "
   ++ quoted (wstring (parent_path dwg_file // "convertedDXF")) ++ " "
   ++ "ACAD2010 DXF 0 1 "
   ++ quoted (filename dwg_file))%string.

(** * Properties *)

(** ** The order on file names *)

Section StringOrder.

Lemma ascii_compare_N (a b : ascii) :
  Ascii.compare a b = N.compare (N_of_ascii a) (N_of_ascii b).
Proof. reflexivity. Qed.

Lemma string_leb_trans (a b c : string) :
  String.leb a b = true -> String.leb b c = true -> String.leb a c = true.
Proof.
  unfold String.leb.
  revert b c; induction a as [|x a IH]; intros [|y b] [|z c]; simpl; try congruence.
  rewrite !ascii_compare_N.
  destruct (N.compare_spec (N_of_ascii x) (N_of_ascii y)) as [Hxy|Hxy|Hxy];
    destruct (N.compare_spec (N_of_ascii y) (N_of_ascii z)) as [Hyz|Hyz|Hyz];
    try congruence; intros Hab Hbc.
  - rewrite Hxy, Hyz, N.compare_refl. now apply IH with b.
  - rewrite Hxy. now apply N.compare_lt_iff in Hyz as ->.
  - rewrite <- Hyz. now apply N.compare_lt_iff in Hxy as ->.
  - assert (H : (N_of_ascii x < N_of_ascii z)%N) by lia.
    now apply N.compare_lt_iff in H as ->.
Qed.

Lemma string_ltb_leb (a b : string) :
  String.ltb a b = false <-> String.leb b a = true.
Proof.
  unfold String.ltb, String.leb. rewrite (String.compare_antisym a b).
  destruct (String.compare b a); simpl; split; congruence.
Qed.

Lemma string_ltb_true_leb (a b : string) :
  String.ltb a b = true -> String.leb a b = true.
Proof.
  unfold String.ltb, String.leb. destruct (String.compare a b); congruence.
Qed.

End StringOrder.

(** ** [std_sort] *)

Section Sorting.

Lemma sort_insert_perm {A : Type} (lt : A -> A -> bool) (x : A) (l : list A) :
  Permutation (x :: l) (sort_insert lt x l).
Proof.
  induction l as [|y l IH]; simpl; [reflexivity|].
  destruct (lt y x); [|reflexivity].
  rewrite perm_swap. now constructor.
Qed.

Lemma std_sort_perm {A : Type} (lt : A -> A -> bool) (l : list A) :
  Permutation l (std_sort lt l).
Proof.
  induction l as [|x l IH]; simpl; [constructor|].
  rewrite <- sort_insert_perm. now constructor.
Qed.

Lemma sort_insert_by_filename (x : path) (l : list path) :
  StronglySorted filename_le l ->
  StronglySorted filename_le (sort_insert by_filename x l).
Proof.
  induction 1 as [|y l Hs IH Hall]; simpl.
  - repeat constructor.
  - unfold by_filename at 1. destruct (String.ltb (filename y) (filename x)) eqn:E.
    + constructor; [exact IH|].
      apply Forall_forall. intros z Hz.
      apply (Permutation_in _ (Permutation_sym (sort_insert_perm by_filename x l))) in Hz.
      destruct Hz as [<-|Hz].
      * now apply string_ltb_true_leb.
      * rewrite Forall_forall in Hall. now apply Hall.
    + apply string_ltb_leb in E.
      constructor; [now constructor|].
      constructor; [exact E|].
      eapply Forall_impl; [|exact Hall].
      intros z Hz. unfold filename_le in *. eapply string_leb_trans; eassumption.
Qed.

Lemma std_sort_by_filename (l : list path) :
  StronglySorted filename_le (std_sort by_filename l).
Proof.
  induction l as [|x l IH]; simpl; [constructor|].
  now apply sort_insert_by_filename.
Qed.

End Sorting.

(** ** What the queries depend on *)

Section SameVolumes.

Variables m1 m2 : Machine.
Hypothesis same : volumes m1 = volumes m2.

Lemma find_volume_same (r : string) : find_volume m1 r = find_volume m2 r.
Proof. unfold find_volume. now rewrite same. Qed.

Lemma fs_exists_same (p : path) : fs_exists m1 p = fs_exists m2 p.
Proof. unfold fs_exists. now rewrite find_volume_same. Qed.

Lemma has_dlls_same (p : path) : has_dlls m1 p = has_dlls m2 p.
Proof. unfold has_dlls. now rewrite !fs_exists_same. Qed.

Lemma entries_of_same (drive : string) : entries_of m1 drive = entries_of m2 drive.
Proof.
  unfold entries_of, recursive_directory_iterator. simpl.
  now rewrite find_volume_same.
Qed.

Lemma search_entries_same (es : list directory_entry) :
  search_entries m1 es = search_entries m2 es.
Proof.
  induction es as [|e es IH]; simpl; [reflexivity|].
  now rewrite IH, has_dlls_same.
Qed.

Lemma drives_loop_same (n d : nat) (mask : Z) (acc : list string) :
  drives_loop m1 n d mask acc = drives_loop m2 n d mask acc.
Proof.
  revert d mask acc; induction n as [|n IH]; intros; simpl; [reflexivity|].
  unfold GetDriveTypeA, GetDiskFreeSpaceA. now rewrite find_volume_same, IH.
Qed.

Lemma available_drives_same : available_drives m1 = available_drives m2.
Proof.
  unfold available_drives, GetLogicalDrives. cbn [fst].
  rewrite same. apply drives_loop_same.
Qed.

End SameVolumes.

Lemma emits_nil (m : Machine) : emits [] m = m.
Proof. destruct m; unfold emits; simpl. now rewrite app_nil_r. Qed.

Lemma emits_emits (a b : list Event) (m : Machine) :
  emits b (emits a m) = emits (a ++ b) m.
Proof. unfold emits; simpl. now rewrite app_assoc. Qed.

Lemma emit_emits (e : Event) (m : Machine) : emit e m = emits [e] m.
Proof. reflexivity. Qed.

Lemma getAvailableDrives_eq (s : State) :
  getAvailableDrives s =
    (available_drives (machine s),
     mkState (emits [EvGetLogicalDrives] (machine s)) (self s)).
Proof.
  unfold getAvailableDrives, bind, sys, ask, ret, available_drives, GetLogicalDrives.
  cbn [fst snd machine self].
  apply f_equal2; [apply drives_loop_same|]; reflexivity.
Qed.

(** ** The scan of one drive *)

Lemma skip_folder_not_dwg (name : string) :
  existsb (String.eqb name) skip_folders = true ->
  String.eqb (name_extension name) ".dwg" = false.
Proof.
  unfold skip_folders; simpl. rewrite !orb_true_iff, !String.eqb_eq.
  intros [H|[H|[H|[H|[H|H]]]]]; try discriminate; subst; reflexivity.
Qed.

Lemma scan_entry_eq (acc : list path * Z) (e : directory_entry) :
  scan_entry acc e =
    if is_dwg e then (fst acc ++ [entry_path e], (snd acc + 1)%Z) else acc.
Proof.
  unfold scan_entry, is_dwg, extension.
  destruct (existsb _ skip_folders) eqn:E; [|reflexivity].
  apply skip_folder_not_dwg in E. rewrite E, andb_false_r. reflexivity.
Qed.

Lemma scan_fold (es : list directory_entry) (files : list path) (n : Z) :
  fold_left scan_entry es (files, n) =
    (files ++ dwg_paths es, (n + Z.of_nat (List.length (dwg_paths es)))%Z).
Proof.
  revert files n; induction es as [|e es IH]; intros; simpl.
  - now rewrite app_nil_r, Z.add_0_r.
  - rewrite scan_entry_eq. unfold dwg_paths in *; simpl.
    destruct (is_dwg e); simpl; rewrite IH.
    + rewrite <- app_assoc. simpl. f_equal. lia.
    + reflexivity.
Qed.

Lemma searchDWGInDrive_eq (drive : string) (s : State) :
  searchDWGInDrive drive s =
    (Z.of_nat (List.length (dwg_paths (entries_of (machine s) drive))),
     mkState (emits [EvIterate drive] (machine s))
       (set_all_dwg_files
          (all_dwg_files (self s) ++ dwg_paths (entries_of (machine s) drive))
          (self s))).
Proof.
  unfold searchDWGInDrive, bind, sys, field, update, ret, entries_of. simpl.
  rewrite scan_fold. reflexivity.
Qed.

(** C10. The scanner's test on the extension is exact: what a scan of a
    drive adds to the candidate list is, in the order of the walk, the path
    of every regular file among the entries walked whose extension equals
    ".dwg" and of nothing else, and the count returned is their number;
    an entry whose extension is ".DWG" leaves list and count as they were. *)
Theorem searchDWGInDrive_exact_extension :
  (forall (drive : string) (s : State),
      let walked := fst (fst (recursive_directory_iterator drive (machine s))) in
      let matching :=
        filter (fun e => is_regular_file e
                         && String.eqb (extension (entry_path e)) ".dwg") walked in
      all_dwg_files (self (snd (searchDWGInDrive drive s))) =
        all_dwg_files (self s) ++ map entry_path matching
      /\ fst (searchDWGInDrive drive s) = Z.of_nat (List.length matching))
  /\ (forall (acc : list path * Z) (e : directory_entry),
         extension (entry_path e) = ".DWG" -> scan_entry acc e = acc)
  /\ (forall (acc : list path * Z) (e : directory_entry),
         scan_entry acc e <> acc ->
         is_regular_file e = true /\ extension (entry_path e) = ".dwg").
Proof.
  split; [|split].
  - intros drive s. rewrite searchDWGInDrive_eq. simpl.
    unfold dwg_paths, entries_of. rewrite length_map. split; reflexivity.
  - intros acc e He. rewrite scan_entry_eq. unfold is_dwg.
    rewrite He, andb_false_r. reflexivity.
  - intros acc e Hne. rewrite scan_entry_eq in Hne. unfold is_dwg in Hne.
    destruct (is_regular_file e); simpl in Hne; [|congruence].
    destruct (String.eqb (extension (entry_path e)) ".dwg") eqn:E; [|congruence].
    apply String.eqb_eq in E. now split.
Qed.

(** ** The scan of all drives *)

Lemma state_eta (s : State) : mkState (machine s) (self s) = s.
Proof. now destruct s. Qed.

Lemma set_all_dwg_files_same (o : DWGConverter) :
  set_all_dwg_files (all_dwg_files o) o = o.
Proof. now destruct o. Qed.

Lemma scan_drives_eq (drives : list string) (total : Z) (s : State) :
  scan_drives drives total s =
    ((total + Z.of_nat (List.length (scanned (machine s) drives)))%Z,
     mkState (emits (map EvIterate drives) (machine s))
       (set_all_dwg_files
          (all_dwg_files (self s) ++ scanned (machine s) drives) (self s))).
Proof.
  revert total s; induction drives as [|d drives IH]; intros total s.
  - simpl. unfold ret.
    now rewrite emits_nil, app_nil_r, set_all_dwg_files_same, state_eta, Z.add_0_r.
  - cbn [scan_drives]. unfold bind. rewrite searchDWGInDrive_eq, IH.
    cbn [machine self all_dwg_files set_all_dwg_files scanned flat_map map].
    rewrite emits_emits.
    assert (E : scanned (emits [EvIterate d] (machine s)) drives
                = scanned (machine s) drives).
    { unfold scanned. apply flat_map_ext. intros a.
      now rewrite (entries_of_same (emits [EvIterate d] (machine s)) (machine s)). }
    unfold scanned in E |- *. rewrite E, <- app_assoc, length_app.
    f_equal. lia.
Qed.

Lemma findAllDWGFiles_eq (s : State) :
  findAllDWGFiles s =
    (tt,
     mkState
       (emits (EvGetLogicalDrives :: map EvIterate (available_drives (machine s)))
          (machine s))
       (set_all_dwg_files
          (std_sort by_filename (scanned (machine s) (available_drives (machine s))))
          (self s))).
Proof.
  unfold findAllDWGFiles, bind. rewrite getAvailableDrives_eq.
  unfold update at 1. rewrite scan_drives_eq.
  unfold field, update. cbn [machine self all_dwg_files set_all_dwg_files app].
  rewrite emits_emits.
  assert (E : scanned (emits [EvGetLogicalDrives] (machine s))
                (available_drives (machine s))
              = scanned (machine s) (available_drives (machine s))).
  { unfold scanned. apply flat_map_ext. intros a.
    now rewrite (entries_of_same (emits [EvGetLogicalDrives] (machine s)) (machine s)). }
  rewrite E. reflexivity.
Qed.

Lemma searchDWGInDrive_exact_extension_witness :
  extension (mkpath "D:\" ["plans"; "PLAN.DWG"]) = ".DWG"
  /\ scan_entry ([], 0%Z) (mkentry (mkpath "D:\" ["plans"; "PLAN.DWG"]) regular)
     = ([], 0%Z).
Proof.
  split; [reflexivity|].
  apply (proj1 (proj2 searchDWGInDrive_exact_extension)). reflexivity.
Defined.

(** C8. After a scan the candidate list is in ascending order of file name
    (the last component of the path): every file name is at most the file
    names that follow it.  The list depends on the volumes only: two scans
    of machines with the same volumes give the same list, whatever the
    object held and the machine logged before. *)
Theorem findAllDWGFiles_sorted_and_repeatable :
  forall s1 s2 : State,
    volumes (machine s1) = volumes (machine s2) ->
    StronglySorted
      (fun a b => String.leb (filename a) (filename b) = true)
      (all_dwg_files (self (snd (findAllDWGFiles s1))))
    /\ all_dwg_files (self (snd (findAllDWGFiles s1)))
       = all_dwg_files (self (snd (findAllDWGFiles s2))).
Proof.
  intros s1 s2 Hv. rewrite !findAllDWGFiles_eq.
  cbn [snd self all_dwg_files set_all_dwg_files]. split.
  - apply std_sort_by_filename.
  - rewrite (available_drives_same _ _ Hv). f_equal.
    unfold scanned. apply flat_map_ext. intros d.
    now rewrite (entries_of_same _ _ Hv).
Qed.

(** ** The tool locators *)

Lemma findODAConverter_nearby (s : State) (p : path) :
  find (fs_exists (machine s)) (oda_nearby (machine s)) = Some p ->
  findODAConverter s = (true, mkState (machine s) (set_oda_converter_path p (self s))).
Proof.
  unfold oda_nearby, findODAConverter, bind, ask, update, ret.
  destruct (has_parent_path (parent_path (current_path (machine s))));
    cbn [find app];
    repeat match goal with
           | |- context [fs_exists ?m ?q] => destruct (fs_exists m q)
           end; intros H; inversion H; reflexivity.
Qed.

Lemma findODAConverter_far (s : State) :
  find (fs_exists (machine s)) (oda_nearby (machine s)) = None ->
  findODAConverter s =
    search_drives (available_drives (machine s))
      (mkState (emits [EvGetLogicalDrives] (machine s)) (self s)).
Proof.
  unfold oda_nearby, findODAConverter, bind, ask, update, ret.
  destruct (has_parent_path (parent_path (current_path (machine s))));
    cbn [find app];
    repeat match goal with
           | |- context [fs_exists ?m ?q] => destruct (fs_exists m q)
           end; intros H; try discriminate H;
    now rewrite getAvailableDrives_eq.
Qed.

Lemma search_entries_some (m : Machine) (es : list directory_entry) (p : path) :
  search_entries m es = Some p ->
  exists e, In e es /\ accepted m e = true /\ entry_path e = p.
Proof.
  induction es as [|e es IH]; simpl; [discriminate|].
  unfold accepted.
  destruct (is_regular_file e && String.eqb (filename (entry_path e)) oda_name) eqn:E1.
  - destruct (has_dlls m (parent_path (entry_path e))) eqn:E2.
    + intros H; inversion H; subst. exists e. rewrite E1, E2. auto.
    + intros H. destruct (IH H) as (e' & Hin & Hacc & Hp). exists e'. auto.
  - intros H. destruct (IH H) as (e' & Hin & Hacc & Hp). exists e'. auto.
Qed.

Lemma search_entries_none (m : Machine) (es : list directory_entry) :
  search_entries m es = None <-> (forall e, In e es -> accepted m e = false).
Proof.
  induction es as [|e es IH]; simpl.
  - split; [intros _ e []|reflexivity].
  - unfold accepted in *.
    destruct (is_regular_file e && String.eqb (filename (entry_path e)) oda_name) eqn:E1;
      [destruct (has_dlls m (parent_path (entry_path e))) eqn:E2|].
    + split; [discriminate|]. intros H. specialize (H e (or_introl eq_refl)).
      rewrite E1, E2 in H. discriminate.
    + rewrite IH. split.
      * intros H e' [<-|Hin]; [now rewrite E1, E2|now apply H].
      * intros H e' Hin. apply H. now right.
    + rewrite IH. split.
      * intros H e' [<-|Hin]; [now rewrite E1|now apply H].
      * intros H e' Hin. apply H. now right.
Qed.

Lemma search_result_some (m : Machine) (drives walked : list string) (p : path) :
  search_result m drives = (Some p, walked) ->
  exists d e, In d drives /\ In e (entries_of m d)
              /\ accepted m e = true /\ entry_path e = p.
Proof.
  revert walked; induction drives as [|d drives IH]; intros walked; simpl.
  - discriminate.
  - destruct (search_entries m (entries_of m d)) as [q|] eqn:E.
    + intros H; inversion H; subst.
      destruct (search_entries_some _ _ _ E) as (e & Hin & Hacc & Hp).
      exists d, e. auto.
    + destruct (search_result m drives) as [r w] eqn:E'. intros H; inversion H; subst.
      destruct (IH _ eq_refl) as (d' & e & Hd & He & Hacc & Hp).
      exists d', e. auto.
Qed.

Lemma search_result_none (m : Machine) (drives walked : list string) :
  search_result m drives = (None, walked) ->
  walked = drives
  /\ forall d e, In d drives -> In e (entries_of m d) -> accepted m e = false.
Proof.
  revert walked; induction drives as [|d drives IH]; intros walked; simpl.
  - intros H; inversion H. split; [reflexivity|]. intros d e [].
  - destruct (search_entries m (entries_of m d)) as [q|] eqn:E; [discriminate|].
    destruct (search_result m drives) as [r w] eqn:E'. intros H; inversion H; subst.
    destruct (IH _ eq_refl) as [-> Hall]. split; [reflexivity|].
    intros d' e [<-|Hd] He.
    + rewrite search_entries_none in E. now apply E.
    + now apply (Hall d').
Qed.

Lemma search_result_same (m1 m2 : Machine) (drives : list string) :
  volumes m1 = volumes m2 -> search_result m1 drives = search_result m2 drives.
Proof.
  intros Hv. induction drives as [|d drives IH]; simpl; [reflexivity|].
  now rewrite IH, (entries_of_same _ _ Hv), (search_entries_same _ _ Hv).
Qed.

Lemma search_drives_eq (drives : list string) (s : State) :
  search_drives drives s =
    (match fst (search_result (machine s) drives) with Some _ => true | None => false end,
     mkState (emits (map EvIterate (snd (search_result (machine s) drives))) (machine s))
       (match fst (search_result (machine s) drives) with
        | Some p => set_oda_converter_path p (self s)
        | None => self s
        end)).
Proof.
  revert s; induction drives as [|d drives IH]; intros s.
  - simpl. unfold ret. now rewrite emits_nil, state_eta.
  - cbn [search_drives search_result]. unfold bind at 1 2, sys, ask.
    unfold entries_of.
    cbn [recursive_directory_iterator machine self fst snd].
    rewrite (search_entries_same (emit (EvIterate d) (machine s)) (machine s) eq_refl).
    match goal with
    | |- context [search_entries (machine s) ?es] =>
        destruct (search_entries (machine s) es) as [p|] eqn:E
    end.
    + reflexivity.
    + rewrite IH. cbn [machine self].
      rewrite (search_result_same (emit (EvIterate d) (machine s)) (machine s) drives eq_refl).
      destruct (search_result (machine s) drives) as [r w].
      cbn [fst snd map]. now rewrite emit_emits, emits_emits.
Qed.

Lemma search_entries_first (m : Machine) (es : list directory_entry) (p : path) :
  search_entries m es = Some p ->
  exists es1 e es2,
    es = es1 ++ e :: es2 /\ entry_path e = p /\ accepted m e = true
    /\ forall e', In e' es1 -> accepted m e' = false.
Proof.
  induction es as [|e0 es IH]; cbn [search_entries]; [discriminate|].
  intros H.
  destruct (accepted m e0) eqn:Ha.
  - exists [], e0, es. unfold accepted in Ha.
    apply andb_true_iff in Ha. destruct Ha as [Ha1 Ha2].
    rewrite Ha1, Ha2 in H. inversion H; subst.
    repeat split; auto.
    + unfold accepted. now rewrite Ha1, Ha2.
    + intros e' [].
  - assert (Hrest : search_entries m es = Some p).
    { unfold accepted in Ha.
      destruct (is_regular_file e0 && String.eqb (filename (entry_path e0)) oda_name);
        cbn [andb] in Ha; [now rewrite Ha in H|exact H]. }
    destruct (IH Hrest) as (es1 & e & es2 & -> & Hp & Hacc & Hbefore).
    exists (e0 :: es1), e, es2. repeat split; auto.
    intros e' [<-|Hin]; [exact Ha|now apply Hbefore].
Qed.

Lemma search_result_first (m : Machine) (drives walked : list string) (p : path) :
  search_result m drives = (Some p, walked) ->
  exists before d after,
    drives = before ++ d :: after /\ walked = before ++ [d]
    /\ search_entries m (entries_of m d) = Some p
    /\ forall d', In d' before -> search_entries m (entries_of m d') = None.
Proof.
  revert walked; induction drives as [|d0 drives IH]; intros walked;
    cbn [search_result]; [discriminate|].
  destruct (search_entries m (entries_of m d0)) as [q|] eqn:E.
  - intros H; inversion H; subst. exists [], d0, drives.
    repeat split; auto. intros d' [].
  - destruct (search_result m drives) as [r w] eqn:E'. intros H; inversion H; subst.
    destruct (IH _ eq_refl) as (before & d & after & -> & -> & Hd & Hbefore).
    exists (d0 :: before), d, after. repeat split; auto.
    intros d' [<-|Hin]; [exact E|now apply Hbefore].
Qed.

Lemma findPythonRenderer_miss (s : State) :
  fs_exists (machine s) (current_path (machine s) // renderer_name) = false ->
  fs_exists (machine s) (parent_path (current_path (machine s)) // renderer_name) = false ->
  findPythonRenderer s = (false, s).
Proof.
  intros H1 H2. unfold findPythonRenderer, bind, ask, update, ret.
  now rewrite H1, H2.
Qed.

Lemma findPythonRenderer_unchanged (s : State) :
  machine (snd (findPythonRenderer s)) = machine s.
Proof.
  unfold findPythonRenderer, bind, ask, update, ret.
  repeat match goal with
         | |- context [fs_exists ?m ?q] => destruct (fs_exists m q)
         end; reflexivity.
Qed.

(** C5 as the specification words it fails: with the converter both in the
    current directory and in its grandparent, the first hit in the order
    current, parent, grandparent is the one of the current directory, and
    [findODAConverter] settles on the one of the grandparent. *)
Lemma findODAConverter_not_current_first :
  find (fs_exists (machine Scenario.two_converters))
    (oda_nearby_as_specified (machine Scenario.two_converters))
  = Some (mkpath "D:\" ["tools"; "bin"; "ODAFileConverter.exe"])
  /\ fst (findODAConverter Scenario.two_converters) = true
  /\ oda_converter_path (self (snd (findODAConverter Scenario.two_converters)))
     = mkpath "D:\" ["ODAFileConverter.exe"]
  /\ Path.eqb (mkpath "D:\" ["ODAFileConverter.exe"])
       (mkpath "D:\" ["tools"; "bin"; "ODAFileConverter.exe"]) = false.
Proof. vm_compute. repeat split. Qed.

(** C5, amended. The nearby phase of [findODAConverter] checks the
    grandparent of the current directory first (when the parent has a
    parent path), then the parent, then the current directory, for the exact
    file name, and takes the first hit; on a hit the machine is left as it
    was, so no drive is enumerated or walked. *)
Theorem findODAConverter_nearby_first_hit :
  forall (s : State) (p : path),
    find (fs_exists (machine s)) (oda_nearby (machine s)) = Some p ->
    fst (findODAConverter s) = true
    /\ oda_converter_path (self (snd (findODAConverter s))) = p
    /\ machine (snd (findODAConverter s)) = machine s
    /\ log (machine (snd (findODAConverter s))) = log (machine s).
Proof.
  intros s p H. rewrite (findODAConverter_nearby s p H). simpl. auto.
Qed.

Lemma findODAConverter_nearby_first_hit_witness :
  fst (findODAConverter Scenario.two_converters) = true
  /\ oda_converter_path (self (snd (findODAConverter Scenario.two_converters)))
     = mkpath "D:\" ["ODAFileConverter.exe"]
  /\ machine (snd (findODAConverter Scenario.two_converters))
     = machine Scenario.two_converters
  /\ log (machine (snd (findODAConverter Scenario.two_converters)))
     = log (machine Scenario.two_converters).
Proof.
  apply (findODAConverter_nearby_first_hit Scenario.two_converters).
  reflexivity.
Defined.

(** C6 as the specification words it fails: with the script out of the
    current directory and its parent but present on drive D:, the only
    enumerated drive, [findPythonRenderer] reports NotFound and the log
    stays empty: no drive was enumerated or walked. *)
Lemma findPythonRenderer_no_drive_walk :
  fst (findPythonRenderer Scenario.renderer_elsewhere) = false
  /\ log (machine (snd (findPythonRenderer Scenario.renderer_elsewhere))) = []
  /\ available_drives (machine Scenario.renderer_elsewhere) = ["D:\"]
  /\ existsb (fun e => is_regular_file e
                       && String.eqb (filename (entry_path e)) renderer_name)
       (entries_of (machine Scenario.renderer_elsewhere) "D:\") = true.
Proof. vm_compute. repeat split. Qed.

(** C6, amended. When the nearby phase of [findODAConverter] finds no
    match, the converter locator enumerates the drives and walks them in
    drive order up to the first drive that holds an entry passing its
    test: the drives walked are a beginning of the enumerated drives; it
    returns NotFound only with every enumerated drive walked and no entry
    of any of them passing the test; and when it succeeds the result is an
    entry of the last drive walked, no drive before it holding one.  The
    renderer locator has no such fallback: with dxf_renderer.py in
    neither the current directory nor its parent it returns NotFound at
    once and leaves the state, log included, as it was. *)
Theorem locators_after_nearby_miss :
  forall s : State,
    (find (fs_exists (machine s)) (oda_nearby (machine s)) = None ->
     exists walked rest : list string,
       fst (getAvailableDrives s) = walked ++ rest
       /\ log (machine (snd (findODAConverter s)))
          = log (machine s) ++ EvGetLogicalDrives :: map EvIterate walked
       /\ (fst (findODAConverter s) = false ->
           rest = []
           /\ forall d e, In d walked -> In e (entries_of (machine s) d) ->
                          accepted (machine s) e = false)
       /\ (fst (findODAConverter s) = true ->
           exists before d e,
             walked = before ++ [d]
             /\ In e (entries_of (machine s) d)
             /\ accepted (machine s) e = true
             /\ oda_converter_path (self (snd (findODAConverter s))) = entry_path e
             /\ forall d' e', In d' before -> In e' (entries_of (machine s) d') ->
                              accepted (machine s) e' = false))
    /\ (fs_exists (machine s) (current_path (machine s) // renderer_name) = false ->
        fs_exists (machine s) (parent_path (current_path (machine s)) // renderer_name)
        = false ->
        findPythonRenderer s = (false, s)).
Proof.
  intros s. split; [|now apply findPythonRenderer_miss].
  intros Hoda. rewrite getAvailableDrives_eq.
  rewrite (findODAConverter_far s Hoda), search_drives_eq. cbn [machine self fst snd].
  rewrite (search_result_same (emits [EvGetLogicalDrives] (machine s)) (machine s)
             _ eq_refl).
  generalize (available_drives (machine s)). intros drives.
  destruct (search_result (machine s) drives) as [[p|] walked] eqn:E; cbn [fst snd].
  - destruct (search_result_first _ _ _ _ E)
      as (before & d & after & Hd & Hw & Hp & Hbefore).
    destruct (search_entries_some _ _ _ Hp) as (e & He & Hacc & Hpath).
    exists walked, after. subst walked drives.
    split; [now rewrite <- app_assoc|].
    split; [unfold emits; cbn [log]; now rewrite <- app_assoc|].
    split; [discriminate|]. intros _.
    exists before, d, e. repeat (split; [auto; fail|]).
    intros d' e' Hd' He'. specialize (Hbefore d' Hd').
    rewrite search_entries_none in Hbefore. now apply Hbefore.
  - destruct (search_result_none _ _ _ E) as [-> Hall].
    exists drives, []. split; [now rewrite app_nil_r|].
    split; [unfold emits; cbn [log]; now rewrite <- app_assoc|].
    split; [|discriminate]. intros _. split; [reflexivity|exact Hall].
Qed.

Lemma locators_after_nearby_miss_witness :
  let s := Scenario.decoy_then_converter in
  let t := Scenario.renderer_elsewhere in
  (exists walked rest : list string,
      fst (getAvailableDrives s) = walked ++ rest
      /\ log (machine (snd (findODAConverter s)))
         = log (machine s) ++ EvGetLogicalDrives :: map EvIterate walked
      /\ (fst (findODAConverter s) = false ->
          rest = []
          /\ forall d e, In d walked -> In e (entries_of (machine s) d) ->
                         accepted (machine s) e = false)
      /\ (fst (findODAConverter s) = true ->
          exists before d e,
            walked = before ++ [d]
            /\ In e (entries_of (machine s) d)
            /\ accepted (machine s) e = true
            /\ oda_converter_path (self (snd (findODAConverter s))) = entry_path e
            /\ forall d' e', In d' before -> In e' (entries_of (machine s) d') ->
                             accepted (machine s) e' = false))
  /\ (exists walked rest : list string,
         fst (getAvailableDrives t) = walked ++ rest
         /\ log (machine (snd (findODAConverter t)))
            = log (machine t) ++ EvGetLogicalDrives :: map EvIterate walked
         /\ (fst (findODAConverter t) = false ->
             rest = []
             /\ forall d e, In d walked -> In e (entries_of (machine t) d) ->
                            accepted (machine t) e = false)
         /\ (fst (findODAConverter t) = true ->
             exists before d e,
               walked = before ++ [d]
               /\ In e (entries_of (machine t) d)
               /\ accepted (machine t) e = true
               /\ oda_converter_path (self (snd (findODAConverter t))) = entry_path e
               /\ forall d' e', In d' before -> In e' (entries_of (machine t) d') ->
                                accepted (machine t) e' = false))
  /\ findPythonRenderer t = (false, t).
Proof.
  split; [|split].
  - apply (proj1 (locators_after_nearby_miss Scenario.decoy_then_converter)).
    reflexivity.
  - apply (proj1 (locators_after_nearby_miss Scenario.renderer_elsewhere)).
    reflexivity.
  - apply (proj2 (locators_after_nearby_miss Scenario.renderer_elsewhere));
      reflexivity.
Defined.

(** On these two machines: the converter is found on the one drive after
    the decoy; nothing is found and the one drive has been walked. *)
Example locators_on_examples :
  findODAConverter Scenario.decoy_then_converter
  = (true,
     mkState
       (emits [EvGetLogicalDrives; EvIterate "D:\"]
          (machine Scenario.decoy_then_converter))
       (set_oda_converter_path (mkpath "D:\" ["oda"; "ODAFileConverter.exe"])
          Scenario.fresh))
  /\ findODAConverter Scenario.renderer_elsewhere
     = (false,
        mkState
          (emits [EvGetLogicalDrives; EvIterate "D:\"]
             (machine Scenario.renderer_elsewhere))
          Scenario.fresh).
Proof. vm_compute. split; reflexivity. Qed.

(** C7. In the full-drive walk (the nearby phase having found nothing), a
    file named ODAFileConverter.exe is accepted only with TD_Db.dll,
    TG_Db.dll or TD_Root.dll in its directory: the path the locator settles
    on is that of a walked regular file of that name with such a sibling; a
    walked file of that name without one is never the result; and it does
    not stop the walk, since a walked file that passes the test, wherever
    it comes in the walk, makes the locator succeed. *)
Theorem findODAConverter_needs_sibling :
  forall s : State,
    find (fs_exists (machine s)) (oda_nearby (machine s)) = None ->
    let m := machine s in
    let found := fst (findODAConverter s) in
    let result := oda_converter_path (self (snd (findODAConverter s))) in
    (found = true ->
     exists d e, In d (available_drives m) /\ In e (entries_of m d)
                 /\ is_regular_file e = true
                 /\ filename (entry_path e) = oda_name
                 /\ has_dlls m (parent_path (entry_path e)) = true
                 /\ result = entry_path e)
    /\ (forall d e, In d (available_drives m) -> In e (entries_of m d) ->
                    filename (entry_path e) = oda_name ->
                    has_dlls m (parent_path (entry_path e)) = false ->
                    found = true -> result <> entry_path e)
    /\ (forall d e, In d (available_drives m) -> In e (entries_of m d) ->
                    is_regular_file e = true ->
                    filename (entry_path e) = oda_name ->
                    has_dlls m (parent_path (entry_path e)) = true ->
                    found = true).
Proof.
  intros s Hoda m found result.
  assert (Hfound :
    found = true ->
    exists d e, In d (available_drives m) /\ In e (entries_of m d)
                /\ is_regular_file e = true
                /\ filename (entry_path e) = oda_name
                /\ has_dlls m (parent_path (entry_path e)) = true
                /\ result = entry_path e).
  { subst found result. rewrite (findODAConverter_far s Hoda), search_drives_eq.
    cbn [machine self fst snd].
    rewrite (search_result_same (emits [EvGetLogicalDrives] (machine s)) (machine s)
               _ eq_refl).
    destruct (search_result (machine s) (available_drives (machine s)))
      as [[p|] walked] eqn:E; cbn [fst snd]; [intros _|discriminate].
    destruct (search_result_some _ _ _ _ E) as (d & e & Hd & He & Hacc & Hp).
    unfold accepted in Hacc. rewrite !andb_true_iff, String.eqb_eq in Hacc.
    destruct Hacc as [[Hreg Hname] Hdll].
    exists d, e. subst p. repeat (split; [assumption|]). reflexivity. }
  split; [exact Hfound|split].
  - intros d e Hd He Hname Hno Hf Heq.
    destruct (Hfound Hf) as (d' & e' & _ & _ & _ & _ & Hdll & Hres).
    rewrite <- Hres, Heq, Hno in Hdll. discriminate.
  - intros d e Hd He Hreg Hname Hdll. subst found.
    rewrite (findODAConverter_far s Hoda), search_drives_eq. cbn [machine self fst snd].
    rewrite (search_result_same (emits [EvGetLogicalDrives] (machine s)) (machine s)
               _ eq_refl).
    destruct (search_result (machine s) (available_drives (machine s)))
      as [[p|] walked] eqn:E; cbn [fst]; [reflexivity|].
    destruct (search_result_none _ _ _ E) as [_ Hall].
    specialize (Hall d e Hd He). unfold accepted in Hall.
    apply String.eqb_eq in Hname. fold m in Hall.
    rewrite Hreg, Hname, Hdll in Hall. discriminate.
Qed.

Lemma findODAConverter_needs_sibling_witness :
  let s := Scenario.decoy_then_converter in
  let m := machine s in
  let found := fst (findODAConverter s) in
  let result := oda_converter_path (self (snd (findODAConverter s))) in
  find (fs_exists m) (oda_nearby m) = None
  /\ (found = true ->
      exists d e, In d (available_drives m) /\ In e (entries_of m d)
                  /\ is_regular_file e = true
                  /\ filename (entry_path e) = oda_name
                  /\ has_dlls m (parent_path (entry_path e)) = true
                  /\ result = entry_path e)
  /\ (forall d e, In d (available_drives m) -> In e (entries_of m d) ->
                  filename (entry_path e) = oda_name ->
                  has_dlls m (parent_path (entry_path e)) = false ->
                  found = true -> result <> entry_path e)
  /\ (forall d e, In d (available_drives m) -> In e (entries_of m d) ->
                  is_regular_file e = true ->
                  filename (entry_path e) = oda_name ->
                  has_dlls m (parent_path (entry_path e)) = true ->
                  found = true).
Proof.
  split; [reflexivity|].
  apply (findODAConverter_needs_sibling Scenario.decoy_then_converter).
  reflexivity.
Defined.

(** The decoy is walked first and passed over. *)
Example decoy_passed_over :
  map entry_path
    (filter (fun e => String.eqb (filename (entry_path e)) oda_name)
       (entries_of (machine Scenario.decoy_then_converter) "D:\"))
  = [mkpath "D:\" ["decoy"; "ODAFileConverter.exe"];
     mkpath "D:\" ["oda"; "ODAFileConverter.exe"]]
  /\ findODAConverter Scenario.decoy_then_converter
     = (true,
        mkState
          (emits [EvGetLogicalDrives; EvIterate "D:\"]
             (machine Scenario.decoy_then_converter))
          (set_oda_converter_path (mkpath "D:\" ["oda"; "ODAFileConverter.exe"])
             Scenario.fresh)).
Proof. vm_compute. split; reflexivity. Qed.

(** ** Evaluations *)

(** C1, on the code. In the scan scenario of the specification the file
    under C:\Windows is collected: the test on the skip-list passes over
    the entry of the directory itself and the iterator still descends
    into it. *)
Theorem findAllDWGFiles_collects_under_Windows :
  existsb (String.eqb "Windows") skip_folders = true
  /\ all_dwg_files (self (snd (findAllDWGFiles Scenario.windows_and_proj)))
     = [mkpath "D:\" ["proj"; "a.dwg"];
        mkpath "D:\" ["proj"; "b.dwg"];
        mkpath "C:\" ["Windows"; "x.dwg"]].
Proof. vm_compute. split; reflexivity. Qed.

(** An iterator that raises ends the walk of its drive only, and what was
    collected before stays; a directory that may not be opened is passed. *)
Example faulty_directory_ends_its_drive :
  all_dwg_files (self (snd (findAllDWGFiles Scenario.faulty_directory)))
  = [mkpath "D:\" ["a"; "1.dwg"]; mkpath "E:\" ["3.dwg"]].
Proof. vm_compute. reflexivity. Qed.

(** C2, on the code. With the expected a.dxf already in place, stage 1
    returns [true] for a converter that exits with code 1 and for one that
    is still running when the wait of two minutes ends: the exit code is
    read but not tested. *)
Theorem convertDWGtoDXF_ignores_exit_code :
  fst (convertDWGtoDXF (mkpath "D:\" ["proj"; "a.dwg"]) empty_path
         (Scenario.stale_output (Exits 1 [])))
  = (true, mkpath "D:\" ["proj"; "convertedDXF"; "a.dxf"])
  /\ fst (convertDWGtoDXF (mkpath "D:\" ["proj"; "a.dwg"]) empty_path
            (Scenario.stale_output (Hangs [])))
     = (true, mkpath "D:\" ["proj"; "convertedDXF"; "a.dxf"])
  /\ fst (WaitForSingleObject (Hangs []) 120000
            (machine (Scenario.stale_output (Hangs [])))) = WAIT_TIMEOUT
  /\ GetExitCodeProcess (Hangs []) = 259%Z.
Proof. vm_compute. repeat split. Qed.

(** C3, on the code. With D:\a\z.dwg and D:\b\a.dwg the candidate list is
    in order of file name, a.dwg first, while the listing numbers the files
    directory by directory, z.dwg first: the file shown as number 1 is
    z.dwg, and typing 1 converts a.dwg. *)
Theorem displayed_number_selects_other_file :
  let s := Scenario.two_directories [1%Z] [] in
  let files := all_dwg_files (self (snd (findAllDWGFiles s))) in
  files = [mkpath "D:\" ["b"; "a.dwg"]; mkpath "D:\" ["a"; "z.dwg"]]
  /\ listing files
     = [(1%Z, mkpath "D:\" ["a"; "z.dwg"]); (2%Z, mkpath "D:\" ["b"; "a.dwg"])]
  /\ nth (Z.to_nat (1 - 1)) files empty_path = mkpath "D:\" ["b"; "a.dwg"]
  /\ log (machine (snd (run s)))
     = [EvGetLogicalDrives; EvIterate "D:\";
        EvListing [(1%Z, mkpath "D:\" ["a"; "z.dwg"]);
                   (2%Z, mkpath "D:\" ["b"; "a.dwg"])];
        EvCreateDirectories (mkpath "D:\" ["b"; "convertedDXF"]);
        EvCreateProcess
          (quoted "D:\tools\ODAFileConverter.exe" ++ " " ++ quoted "D:\b" ++ " "
           ++ quoted "D:\b\convertedDXF" ++ " ACAD2010 DXF 0 1 " ++ quoted "a.dwg")%string
          (Some (mkpath "D:\" ["tools"]))].
Proof. vm_compute. repeat split. Qed.

(** ** The run *)

Lemma run_steps (s : State) :
  run s =
    match fst (choose_file s) with
    | None => (false, snd (choose_file s))
    | Some f => convert_file f (snd (choose_file s))
    end.
Proof.
  unfold run, choose_file, convert_file, bind, ret.
  destruct (findODAConverter s) as [[] s1]; cbn [negb fst snd]; [|reflexivity].
  destruct (findPythonRenderer s1) as [[] s2]; cbn [negb fst snd]; [|reflexivity].
  destruct (findAllDWGFiles s2) as [[] s3].
  unfold field. destruct (all_dwg_files (self s3)) as [|f0 fs]; [reflexivity|].
  destruct (displayDWGFiles s3) as [[] s4].
  destruct (sys cin_int s4) as [c s5].
  destruct ((c <=? 0)%Z || (to_size_t c >? Z.of_nat (List.length (f0 :: fs)))%Z);
    reflexivity.
Qed.

Lemma quiet_step_refl (s : State) : quiet_step s s.
Proof.
  repeat split. exists []. now rewrite app_nil_r.
Qed.

Lemma quiet_step_trans (s1 s2 s3 : State) :
  quiet_step s1 s2 -> quiet_step s2 s3 -> quiet_step s1 s3.
Proof.
  intros (V1 & C1 & K1 & D1 & P1 & e1 & L1 & F1) (V2 & C2 & K2 & D2 & P2 & e2 & L2 & F2).
  repeat split; try congruence.
  exists (e1 ++ e2). rewrite L2, L1, app_assoc. split; [reflexivity|].
  apply Forall_app. now split.
Qed.

Lemma quiet_step_emits (s : State) (evs : list Event) (o : DWGConverter) :
  Forall quiet evs ->
  output_dxf_dir o = output_dxf_dir (self s) ->
  output_pdf_dir o = output_pdf_dir (self s) ->
  quiet_step s (mkState (emits evs (machine s)) o).
Proof.
  intros HF HD HP. repeat split; try assumption. now exists evs.
Qed.

Lemma quiet_step_self (s : State) (o : DWGConverter) :
  output_dxf_dir o = output_dxf_dir (self s) ->
  output_pdf_dir o = output_pdf_dir (self s) ->
  quiet_step s (mkState (machine s) o).
Proof.
  intros HD HP. repeat split; try assumption. exists []. cbn [machine].
  now rewrite app_nil_r.
Qed.

Lemma Forall_quiet_iterate (drives : list string) : Forall quiet (map EvIterate drives).
Proof. induction drives; simpl; constructor; auto. exact I. Qed.

Lemma findODAConverter_quiet (s : State) :
  quiet_step s (snd (findODAConverter s))
  /\ all_dwg_files (self (snd (findODAConverter s))) = all_dwg_files (self s).
Proof.
  destruct (find (fs_exists (machine s)) (oda_nearby (machine s))) as [p|] eqn:E.
  - rewrite (findODAConverter_nearby s p E). cbn [snd]. split; [|reflexivity].
    now apply quiet_step_self.
  - rewrite (findODAConverter_far s E), search_drives_eq. cbn [snd machine self].
    rewrite emits_emits. split.
    + apply quiet_step_emits.
      * constructor; [exact I|apply Forall_quiet_iterate].
      * now destruct (fst (search_result _ _)).
      * now destruct (fst (search_result _ _)).
    + now destruct (fst (search_result _ _)).
Qed.

Lemma findPythonRenderer_quiet (s : State) :
  quiet_step s (snd (findPythonRenderer s))
  /\ all_dwg_files (self (snd (findPythonRenderer s))) = all_dwg_files (self s).
Proof.
  unfold findPythonRenderer, bind, ask, update, ret.
  repeat match goal with
         | |- context [fs_exists ?m ?q] => destruct (fs_exists m q)
         end; cbn [snd]; split; try reflexivity;
    try apply quiet_step_refl; now apply quiet_step_self.
Qed.

Lemma candidates_same (m1 m2 : Machine) :
  volumes m1 = volumes m2 -> candidates m1 = candidates m2.
Proof.
  intros Hv. unfold candidates. rewrite (available_drives_same _ _ Hv). f_equal.
  unfold scanned. apply flat_map_ext. intros d. now rewrite (entries_of_same _ _ Hv).
Qed.

Lemma findAllDWGFiles_quiet (s : State) :
  quiet_step s (snd (findAllDWGFiles s))
  /\ all_dwg_files (self (snd (findAllDWGFiles s))) = candidates (machine s).
Proof.
  rewrite findAllDWGFiles_eq. unfold candidates.
  cbn [snd self all_dwg_files set_all_dwg_files]. split; [|reflexivity].
  apply quiet_step_emits.
  - constructor; [exact I|apply Forall_quiet_iterate].
  - cbn [output_dxf_dir set_all_dwg_files]. reflexivity.
  - cbn [output_pdf_dir set_all_dwg_files]. reflexivity.
Qed.

Lemma displayDWGFiles_quiet (s : State) :
  quiet_step s (snd (displayDWGFiles s))
  /\ self (snd (displayDWGFiles s)) = self s.
Proof.
  unfold displayDWGFiles, bind, field, sys, ret.
  destruct (all_dwg_files (self s)); cbn [snd].
  - split; [apply quiet_step_refl|reflexivity].
  - split; [|reflexivity]. rewrite emit_emits.
    apply quiet_step_emits; [|reflexivity|reflexivity].
    constructor; [exact I|constructor].
Qed.

Lemma cin_int_range (m : Machine) :
  (INT_MIN <= fst (cin_int m) <= INT_MAX)%Z.
Proof.
  unfold cin_int, INT_MIN, INT_MAX. destruct (cin m); cbn [fst]; lia.
Qed.

Lemma cin_int_same (m1 m2 : Machine) :
  cin m1 = cin m2 -> fst (cin_int m1) = fst (cin_int m2).
Proof.
  unfold cin_int. intros ->. now destruct (cin m2).
Qed.

Lemma cin_int_frame (m : Machine) :
  volumes (snd (cin_int m)) = volumes m
  /\ children (snd (cin_int m)) = children m
  /\ log (snd (cin_int m)) = log m.
Proof.
  unfold cin_int. destruct (cin m); cbn [snd]; auto.
Qed.

Lemma rejected_iff (c n : Z) :
  (INT_MIN <= c <= INT_MAX)%Z ->
  ((c <=? 0)%Z || (to_size_t c >? n)%Z = true <-> (c <= 0 \/ c > n)%Z).
Proof.
  unfold INT_MIN, INT_MAX, to_size_t. intros Hc.
  rewrite orb_true_iff, Z.leb_le, Z.gtb_gt.
  destruct (Z_le_gt_dec c 0) as [Hle|Hgt]; [tauto|].
  rewrite Z.mod_small by lia. tauto.
Qed.

(** [choose_file], step by step: up to the prompt the run only looks; it
    ends without a file before the prompt, or reads one number and tests
    it against the candidate list of the scan. *)
Lemma choose_file_inv (s : State) :
  exists s4 : State,
    quiet_step s s4
    /\ ((fst (choose_file s) = None
         /\ snd (choose_file s) = s4
         /\ (all_dwg_files (self s4) = all_dwg_files (self s)
             \/ all_dwg_files (self s4) = candidates (machine s)))
        \/ (all_dwg_files (self s4) = candidates (machine s)
            /\ snd (choose_file s) = mkState (snd (cin_int (machine s4))) (self s4)
            /\ fst (choose_file s) =
                 let c := fst (cin_int (machine s)) in
                 if (c <=? 0)%Z
                    || (to_size_t c >? Z.of_nat (List.length (candidates (machine s))))%Z
                 then None
                 else Some (nth (Z.to_nat (c - 1)) (candidates (machine s)) empty_path))).
Proof.
  unfold choose_file, bind, ret.
  destruct (findODAConverter_quiet s) as [Q1 F1].
  destruct (findODAConverter s) as [[] s1]; cbn [negb fst snd] in *.
  2: { exists s1. split; [exact Q1|]. left. auto. }
  destruct (findPythonRenderer_quiet s1) as [Q2 F2].
  destruct (findPythonRenderer s1) as [[] s2]; cbn [negb fst snd] in *.
  2: { exists s2. split; [now apply quiet_step_trans with s1|].
       left. repeat split. left. congruence. }
  assert (Q12 : quiet_step s s2) by now apply quiet_step_trans with s1.
  destruct (findAllDWGFiles_quiet s2) as [Q3 F3].
  rewrite (candidates_same (machine s2) (machine s)) in F3 by apply Q12.
  destruct (findAllDWGFiles s2) as [[] s3]; cbn [fst snd] in *.
  assert (Q13 : quiet_step s s3) by now apply quiet_step_trans with s2.
  unfold field. destruct (all_dwg_files (self s3)) as [|f0 fs] eqn:EF.
  - exists s3. split; [exact Q13|]. left. repeat split. right. congruence.
  - destruct (displayDWGFiles_quiet s3) as [Q4 F4].
    destruct (displayDWGFiles s3) as [[] s4]; cbn [fst snd] in *.
    assert (Q14 : quiet_step s s4) by now apply quiet_step_trans with s3.
    exists s4. split; [exact Q14|]. right.
    assert (EC : fst (cin_int (machine s4)) = fst (cin_int (machine s)))
      by (apply cin_int_same; apply Q14).
    unfold sys. destruct (cin_int (machine s4)) as [c m5]; cbn [fst snd] in *.
    subst c. rewrite <- F3.
    split; [now rewrite F4|]. cbv zeta.
    destruct ((fst (cin_int (machine s)) <=? 0)%Z || _); split; reflexivity.
Qed.

Lemma filename_append (p : path) (name : string) : filename (p // name) = name.
Proof. unfold filename, append; simpl. apply last_last. Qed.

Lemma quiet_not_stage2 (e : Event) : quiet e -> is_stage2_event e = false.
Proof. destruct e; simpl; intros H; try reflexivity; destruct H. Qed.

Lemma quoted_not_python (x y : string) :
  String.prefix "python " (quoted x ++ y)%string = false.
Proof. reflexivity. Qed.

(** Stage 1 makes convertedDXF, starts the converter and waits for it; it
    leaves [output_pdf_dir] alone. *)
Lemma convertDWGtoDXF_frame (dwg_file output_dxf : path) (s : State) :
  output_pdf_dir (self (snd (convertDWGtoDXF dwg_file output_dxf s)))
  = output_pdf_dir (self s)
  /\ exists evs,
      log (machine (snd (convertDWGtoDXF dwg_file output_dxf s)))
      = log (machine s) ++ evs
      /\ Forall (fun e => is_stage2_event e = false) evs.
Proof.
  unfold convertDWGtoDXF, bind, update, field, sys, ask, ret.
  cbn [machine self output_dxf_dir set_output_dxf_dir create_directories snd fst].
  unfold CreateProcessW.
  cbn [children emit with_volumes volumes current_path cin log].
  assert (Hdir : is_stage2_event
                   (EvCreateDirectories (parent_path dwg_file // "convertedDXF")) = false).
  { cbn [is_stage2_event]. now rewrite filename_append. }
  destruct (children (machine s)) as [|[pi|] rest];
    unfold WaitForSingleObject;
    repeat match goal with
           | |- context [if fs_exists ?m ?q then _ else _] => destruct (fs_exists m q)
           end;
    cbn [snd fst self machine log output_pdf_dir set_output_dxf_dir emit with_volumes
           volumes current_path cin children];
    (split; [reflexivity|]);
    eexists; rewrite <- !app_assoc; (split; [reflexivity|]);
    repeat constructor; try exact Hdir; apply quoted_not_python.
Qed.

(** Stage 1 returns [true] only with the converter started and the
    expected file in place after the wait; the exit code has no part. *)
Lemma convertDWGtoDXF_true (dwg_file output_dxf : path) (s : State) :
  fst (fst (convertDWGtoDXF dwg_file output_dxf s)) = true ->
  let expected :=
    parent_path dwg_file // "convertedDXF" // (stem dwg_file ++ ".dxf")%string in
  snd (fst (convertDWGtoDXF dwg_file output_dxf s)) = expected
  /\ fs_exists (machine (snd (convertDWGtoDXF dwg_file output_dxf s))) expected = true
  /\ exists pi rest, children (machine s) = Some pi :: rest.
Proof.
  unfold convertDWGtoDXF, bind, update, field, sys, ask, ret.
  cbn [machine self output_dxf_dir set_output_dxf_dir create_directories snd fst].
  unfold CreateProcessW.
  cbn [children emit with_volumes volumes current_path cin log].
  destruct (children (machine s)) as [|[pi|] rest];
    cbn [fst snd]; try discriminate.
  unfold WaitForSingleObject. cbn [fst snd machine self].
  match goal with
  | |- context [if fs_exists ?m ?q then _ else _] => destruct (fs_exists m q) eqn:E
  end; cbn [fst snd machine]; [|discriminate].
  intros _. repeat split; [exact E|]. now exists pi, rest.
Qed.

(** C4. Whenever a run reaches stage 1 and stage 1 returns [false] (the
    converter not started, or the expected file missing after the wait,
    timeout included), [run] returns [false] in the very state stage 1
    left: nothing is done after it.  In that run no directory named
    convertedPDF is made, no renderer command is started, and
    [output_pdf_dir] is never assigned. *)
Theorem stage1_failure_stops_run :
  forall (s : State) (f : path),
    fst (choose_file s) = Some f ->
    fst (fst (convertDWGtoDXF f empty_path (snd (choose_file s)))) = false ->
    run s = (false, snd (convertDWGtoDXF f empty_path (snd (choose_file s))))
    /\ output_pdf_dir (self (snd (run s))) = output_pdf_dir (self s)
    /\ exists evs,
        log (machine (snd (run s))) = log (machine s) ++ evs
        /\ Forall (fun e => is_stage2_event e = false) evs.
Proof.
  intros s f Hsel Hfail.
  assert (Hrun : run s = (false, snd (convertDWGtoDXF f empty_path (snd (choose_file s))))).
  { rewrite run_steps, Hsel. unfold convert_file, bind, ret.
    destruct (convertDWGtoDXF f empty_path (snd (choose_file s))) as [[ok dxf] s2].
    cbn [fst snd] in *. now subst ok. }
  rewrite Hrun. cbn [snd]. split; [reflexivity|].
  destruct (convertDWGtoDXF_frame f empty_path (snd (choose_file s)))
    as (HP & evs2 & HL2 & HF2).
  destruct (choose_file_inv s) as (s4 & Q & [(Hnone & _)|(_ & Hsnd & _)]);
    [congruence|].
  destruct Q as (_ & _ & _ & _ & P4 & evs1 & L1 & F1).
  destruct (cin_int_frame (machine s4)) as (_ & _ & HL5).
  rewrite Hsnd in HP, HL2 |- *. cbn [machine self] in HP, HL2.
  split; [congruence|].
  exists (evs1 ++ evs2). rewrite HL2, HL5, L1, app_assoc. split; [reflexivity|].
  apply Forall_app. split; [|exact HF2].
  eapply Forall_impl; [|exact F1]. exact quiet_not_stage2.
Qed.

Lemma stage1_failure_stops_run_witness :
  let s := Scenario.two_directories [1%Z] [Some (Exits 0 [])] in
  let f := mkpath "D:\" ["b"; "a.dwg"] in
  run s = (false, snd (convertDWGtoDXF f empty_path (snd (choose_file s))))
  /\ output_pdf_dir (self (snd (run s))) = output_pdf_dir (self s)
  /\ exists evs,
      log (machine (snd (run s))) = log (machine s) ++ evs
      /\ Forall (fun e => is_stage2_event e = false) evs.
Proof.
  apply (stage1_failure_stops_run
           (Scenario.two_directories [1%Z] [Some (Exits 0 [])])
           (mkpath "D:\" ["b"; "a.dwg"])); reflexivity.
Defined.

(** The scenario of the specification: the converter exits with 0 and
    writes nothing; stage 1 fails and the run ends there. *)
Example converter_exits_0_without_output :
  let s := Scenario.two_directories [2%Z] [Some (Exits 0 []); Some (Exits 0 [])] in
  fst (run s) = false
  /\ children (machine (snd (run s))) = [Some (Exits 0 [])]
  /\ fs_exists (machine (snd (run s))) (mkpath "D:\" ["a"; "convertedDXF"]) = true
  /\ fs_exists (machine (snd (run s))) (mkpath "D:\" ["a"; "convertedPDF"]) = false.
Proof. vm_compute. repeat split. Qed.

(** C9. Let [c] be the number the prompt reads and [files] the candidate
    list of the scan.  If [c] is not positive or exceeds the length of
    [files], [run] returns [false] having only looked: the volumes are as
    they were (no directory made), no child process was started, the log
    holds nothing but drive enumeration, walks and the listing, the output
    directories of the object are unassigned as before, and the candidate
    list is the list of the scan (or the old one, when the run ended before
    the scan). *)
Theorem invalid_selection_rejected :
  forall s : State,
    let c := fst (cin_int (machine s)) in
    let files := all_dwg_files (self (snd (findAllDWGFiles s))) in
    (c <= 0 \/ c > Z.of_nat (List.length files))%Z ->
    fst (run s) = false
    /\ volumes (machine (snd (run s))) = volumes (machine s)
    /\ children (machine (snd (run s))) = children (machine s)
    /\ (exists evs, log (machine (snd (run s))) = log (machine s) ++ evs
                    /\ Forall quiet evs)
    /\ output_dxf_dir (self (snd (run s))) = output_dxf_dir (self s)
    /\ output_pdf_dir (self (snd (run s))) = output_pdf_dir (self s)
    /\ (all_dwg_files (self (snd (run s))) = files
        \/ all_dwg_files (self (snd (run s))) = all_dwg_files (self s)).
Proof.
  intros s c files Hbad. subst c files.
  destruct (findAllDWGFiles_quiet s) as [_ ->] in Hbad |- *.
  apply rejected_iff in Hbad; [|apply cin_int_range].
  rewrite run_steps.
  destruct (choose_file_inv s) as (s4 & Q & [(Hnone & Hsnd & Hfiles)|(Hfiles & Hsnd & Hfst)]).
  - rewrite Hnone, Hsnd. cbn [fst snd].
    destruct Q as (V & _ & K & D & P & L). repeat split; try assumption. tauto.
  - cbv zeta in Hfst. rewrite Hbad in Hfst. rewrite Hfst, Hsnd. cbn [fst snd machine self].
    destruct Q as (V & _ & K & D & P & evs & L & F).
    destruct (cin_int_frame (machine s4)) as (V5 & K5 & L5).
    repeat split; try congruence; [|now left].
    exists evs. split; [congruence|exact F].
Qed.

Lemma invalid_selection_rejected_witness :
  let s := Scenario.two_directories [3%Z] [Some (Exits 0 [])] in
  fst (run s) = false
  /\ volumes (machine (snd (run s))) = volumes (machine s)
  /\ children (machine (snd (run s))) = children (machine s)
  /\ (exists evs, log (machine (snd (run s))) = log (machine s) ++ evs
                  /\ Forall quiet evs)
  /\ output_dxf_dir (self (snd (run s))) = output_dxf_dir (self s)
  /\ output_pdf_dir (self (snd (run s))) = output_pdf_dir (self s)
  /\ (all_dwg_files (self (snd (run s)))
      = all_dwg_files (self (snd (findAllDWGFiles s)))
      \/ all_dwg_files (self (snd (run s))) = all_dwg_files (self s)).
Proof.
  apply (invalid_selection_rejected
           (Scenario.two_directories [3%Z] [Some (Exits 0 [])])).
  right. vm_compute. reflexivity.
Defined.

Lemma findAllDWGFiles_sorted_and_repeatable_witness :
  let s1 := Scenario.windows_and_proj in
  let s2 := mkState
              (mkMachine (volumes (machine s1)) (mkpath "C:\" []) [7%Z] [None]
                 [EvIterate "C:\"])
              (set_all_dwg_files [mkpath "D:\" ["old.dwg"]] Scenario.located) in
  StronglySorted
    (fun a b => String.leb (filename a) (filename b) = true)
    (all_dwg_files (self (snd (findAllDWGFiles s1))))
  /\ all_dwg_files (self (snd (findAllDWGFiles s1)))
     = all_dwg_files (self (snd (findAllDWGFiles s2))).
Proof.
  apply findAllDWGFiles_sorted_and_repeatable. reflexivity.
Defined.

(** * Further properties of the program *)

(** ** [getAvailableDrives] *)

Lemma drives_loop_acc (m : Machine) (n d : nat) (mask : Z) (acc : list string) :
  drives_loop m n d mask acc = acc ++ drives_loop m n d mask [].
Proof.
  revert d mask acc; induction n as [|n IH]; intros d mask acc.
  - simpl. now rewrite app_nil_r.
  - cbn [drives_loop].
    destruct (Z.eqb (Z.land mask 1) 0); [apply IH|].
    destruct (is_fixed_or_removable _); [|apply IH].
    destruct (GetDiskFreeSpaceA _ _); [|apply IH].
    rewrite IH, (IH _ _ ([] ++ _)). now rewrite <- app_assoc.
Qed.

Lemma land_1_testbit (mask : Z) :
  Z.eqb (Z.land mask 1) 0 = negb (Z.testbit mask 0).
Proof.
  change 1%Z with (Z.ones 1). rewrite Z.land_ones by lia.
  change (2 ^ 1)%Z with 2%Z. rewrite <- Z.bit0_mod.
  now destruct (Z.testbit mask 0).
Qed.

Lemma drives_loop_In (m : Machine) (n d : nat) (mask : Z) (x : string) :
  In x (drives_loop m n d mask []) <->
  exists k : nat,
    (k < n)%nat
    /\ x = drive_string (ascii_of_nat (d + k))
    /\ Z.testbit mask (Z.of_nat k) = true
    /\ is_fixed_or_removable (GetDriveTypeA m x) = true
    /\ GetDiskFreeSpaceA m x = true.
Proof.
  revert d mask; induction n as [|n IH]; intros d mask.
  - simpl. split; [intros []|]. intros (k & Hk & _). lia.
  - cbn [drives_loop]. rewrite drives_loop_acc, in_app_iff, IH, land_1_testbit.
    split.
    + intros [Hhead|(k & Hk & Hx & Hbit & Hty & Hrdy)].
      * revert Hhead.
        destruct (Z.testbit mask 0) eqn:Hb; cbn [negb In]; [|intros []].
        destruct (is_fixed_or_removable
                    (GetDriveTypeA m (drive_string (ascii_of_nat d)))) eqn:Hty;
          cbn [In]; [|intros []].
        destruct (GetDiskFreeSpaceA m (drive_string (ascii_of_nat d))) eqn:Hrdy;
          cbn [In app]; [|intros []].
        intros [<-|[]]. exists 0%nat.
        rewrite Nat.add_0_r. repeat split; auto. lia.
      * exists (S k). rewrite Z.shiftr_spec in Hbit by lia.
        replace (d + S k)%nat with (S d + k)%nat by lia.
        replace (Z.of_nat (S k)) with (Z.of_nat k + 1)%Z by lia.
        repeat split; auto. lia.
    + intros (k & Hk & Hx & Hbit & Hty & Hrdy). destruct k as [|k].
      * left. rewrite Nat.add_0_r in Hx. subst x.
        cbn [Z.of_nat] in Hbit. rewrite Hbit. cbn [negb].
        rewrite Hty, Hrdy. now left.
      * right. exists k. rewrite Z.shiftr_spec by lia.
        replace (S d + k)%nat with (d + S k)%nat by lia.
        replace (Z.of_nat k + 1)%Z with (Z.of_nat (S k)) by lia.
        repeat split; auto. lia.
Qed.

Lemma drive_string_inj (a b : ascii) : drive_string a = drive_string b -> a = b.
Proof. unfold drive_string. congruence. Qed.

Lemma ascii_of_nat_inj (a b : nat) :
  (a < 256)%nat -> (b < 256)%nat -> ascii_of_nat a = ascii_of_nat b -> a = b.
Proof.
  intros Ha Hb H. rewrite <- (nat_ascii_embedding a Ha), <- (nat_ascii_embedding b Hb).
  now rewrite H.
Qed.

Lemma drives_loop_NoDup (m : Machine) (n d : nat) (mask : Z) :
  (d + n <= 256)%nat -> NoDup (drives_loop m n d mask []).
Proof.
  revert d mask; induction n as [|n IH]; intros d mask Hd.
  - constructor.
  - cbn [drives_loop]. rewrite drives_loop_acc.
    assert (Htail : NoDup (drives_loop m n (S d) (Z.shiftr mask 1) [])) by (apply IH; lia).
    assert (Hfresh : ~ In (drive_string (ascii_of_nat d))
                         (drives_loop m n (S d) (Z.shiftr mask 1) [])).
    { rewrite drives_loop_In. intros (k & Hk & Hx & _).
      apply drive_string_inj, ascii_of_nat_inj in Hx; lia. }
    destruct (Z.eqb (Z.land mask 1) 0); [exact Htail|].
    destruct (is_fixed_or_removable _); [|exact Htail].
    destruct (GetDiskFreeSpaceA _ _); [|exact Htail].
    now constructor.
Qed.

Lemma testbit_1 (k : Z) : Z.testbit 1 k = Z.eqb k 0.
Proof. destruct k as [|p|p]; reflexivity. Qed.

Lemma letter_bit_testbit (c : ascii) (k : nat) :
  Z.testbit (letter_bit c) (Z.of_nat k) = true <->
  (nat_of_ascii c = 65 + k /\ k < 26)%nat.
Proof.
  unfold letter_bit.
  destruct ((0 <=? Z.of_nat (nat_of_ascii c) - 65)%Z
            && (Z.of_nat (nat_of_ascii c) - 65 <? 26)%Z) eqn:E.
  - apply andb_true_iff in E. destruct E as [E1 E2].
    apply Z.leb_le in E1. apply Z.ltb_lt in E2.
    rewrite Z.shiftl_spec by lia. rewrite testbit_1, Z.eqb_eq. lia.
  - rewrite Z.bits_0. apply andb_false_iff in E.
    split; [discriminate|]. intros [H1 H2].
    destruct E as [E|E]; [apply Z.leb_gt in E|apply Z.ltb_ge in E]; lia.
Qed.

Lemma logical_drives_testbit (vs : list Volume) (k : nat) :
  Z.testbit (fold_right (fun v acc => Z.lor (letter_bit (v_letter v)) acc) 0%Z vs)
    (Z.of_nat k) = true <->
  exists v, In v vs /\ (nat_of_ascii (v_letter v) = 65 + k /\ k < 26)%nat.
Proof.
  induction vs as [|v vs IH]; cbn [fold_right].
  - rewrite Z.bits_0. split; [discriminate|]. intros (v & [] & _).
  - rewrite Z.lor_spec, orb_true_iff, letter_bit_testbit, IH. split.
    + intros [H|(w & Hw & H)]; [exists v|exists w]; split; auto;
        [now left|now right].
    + intros (w & [<-|Hw] & H); [now left|right; now exists w].
Qed.

Lemma find_volume_some (m : Machine) (r : string) (v : Volume) :
  find_volume m r = Some v -> In v (volumes m) /\ r = drive_string (v_letter v).
Proof.
  unfold find_volume. intros H. apply find_some in H. destruct H as [Hin Heq].
  apply String.eqb_eq in Heq. auto.
Qed.

(** X1. The drives [getAvailableDrives] returns are exactly the root paths
    of the volumes lettered A to Z that are fixed or removable and answer
    the free-space query. *)
Theorem getAvailableDrives_exactly_ready_drives :
  forall (s : State) (x : string),
    In x (fst (getAvailableDrives s)) <->
    exists v : Volume,
      find_volume (machine s) x = Some v
      /\ (65 <= nat_of_ascii (v_letter v) <= 90)%nat
      /\ (v_type v = DRIVE_FIXED \/ v_type v = DRIVE_REMOVABLE)
      /\ v_ready v = true.
Proof.
  intros s x. rewrite getAvailableDrives_eq. cbn [fst]. unfold available_drives.
  assert (Hloop := drives_loop_In (machine s)).
  remember 65%nat as d eqn:Hd. remember 26%nat as n eqn:Hn.
  rewrite (Hloop n d). subst n d. clear Hloop.
  unfold GetLogicalDrives. cbn [fst]. unfold GetDriveTypeA, GetDiskFreeSpaceA. split.
  - intros (k & Hk & Hx & _ & Hty & Hrdy).
    destruct (find_volume (machine s) x) as [v|] eqn:E; [|discriminate].
    exists v. destruct (find_volume_some _ _ _ E) as [_ Hr].
    rewrite Hx in Hr. apply drive_string_inj in Hr.
    assert (Hn : nat_of_ascii (v_letter v) = (65 + k)%nat)
      by (rewrite <- Hr; apply nat_ascii_embedding; lia).
    repeat split; auto; try lia.
    destruct (v_type v); try discriminate; auto.
  - intros (v & E & Hrange & Hty & Hrdy).
    destruct (find_volume_some _ _ _ E) as [Hin Hr].
    exists (nat_of_ascii (v_letter v) - 65)%nat.
    replace (65 + (nat_of_ascii (v_letter v) - 65))%nat
      with (nat_of_ascii (v_letter v)) by lia.
    rewrite ascii_nat_embedding, E, Hrdy. repeat split; auto; try lia.
    + apply logical_drives_testbit. exists v. split; [exact Hin|lia].
    + now destruct Hty as [-> | ->].
Qed.

(** X2. No drive is returned twice by [getAvailableDrives]. *)
Theorem getAvailableDrives_NoDup :
  forall s : State, NoDup (fst (getAvailableDrives s)).
Proof.
  intros s. rewrite getAvailableDrives_eq. cbn [fst]. unfold available_drives.
  assert (H : (65 + 26 <= 256)%nat) by lia.
  exact (drives_loop_NoDup (machine s) 26 65 (fst (GetLogicalDrives (machine s))) H).
Qed.

(** ** The locators *)

(** X3. When nothing is found nearby and [findODAConverter] succeeds, its
    result is the first entry, in walk order, of the first drive, in
    drive order, that passes the test (regular file, the converter's name,
    a library beside it): no earlier entry of that drive and no entry of
    an earlier drive passes it, and the drives after it are not walked. *)
Theorem findODAConverter_first_match :
  forall s : State,
    find (fs_exists (machine s)) (oda_nearby (machine s)) = None ->
    fst (findODAConverter s) = true ->
    exists before d after es1 e es2,
      fst (getAvailableDrives s) = before ++ d :: after
      /\ entries_of (machine s) d = es1 ++ e :: es2
      /\ oda_converter_path (self (snd (findODAConverter s))) = entry_path e
      /\ accepted (machine s) e = true
      /\ (forall e', In e' es1 -> accepted (machine s) e' = false)
      /\ (forall d' e', In d' before -> In e' (entries_of (machine s) d') ->
                        accepted (machine s) e' = false)
      /\ log (machine (snd (findODAConverter s)))
         = log (machine s) ++ EvGetLogicalDrives :: map EvIterate (before ++ [d]).
Proof.
  intros s Hnear. rewrite getAvailableDrives_eq.
  rewrite (findODAConverter_far s Hnear), search_drives_eq. cbn [machine self fst snd].
  rewrite (search_result_same (emits [EvGetLogicalDrives] (machine s)) (machine s)
             _ eq_refl).
  destruct (search_result (machine s) (available_drives (machine s)))
    as [[p|] walked] eqn:E; cbn [fst snd]; [intros _|discriminate].
  destruct (search_result_first _ _ _ _ E) as (before & d & after & Hd & -> & Hp & Hbefore).
  destruct (search_entries_first _ _ _ Hp) as (es1 & e & es2 & Hes & He & Hacc & Hes1).
  exists before, d, after, es1, e, es2. repeat split; auto.
  - intros d' e' Hd' He'. specialize (Hbefore d' Hd').
    rewrite search_entries_none in Hbefore. now apply Hbefore.
  - unfold emits. cbn [log]. now rewrite <- app_assoc.
Qed.

Lemma findODAConverter_first_match_witness :
  let s := Scenario.decoy_then_converter in
  exists before d after es1 e es2,
    fst (getAvailableDrives s) = before ++ d :: after
    /\ entries_of (machine s) d = es1 ++ e :: es2
    /\ oda_converter_path (self (snd (findODAConverter s))) = entry_path e
    /\ accepted (machine s) e = true
    /\ (forall e', In e' es1 -> accepted (machine s) e' = false)
    /\ (forall d' e', In d' before -> In e' (entries_of (machine s) d') ->
                      accepted (machine s) e' = false)
    /\ log (machine (snd (findODAConverter s)))
       = log (machine s) ++ EvGetLogicalDrives :: map EvIterate (before ++ [d]).
Proof.
  apply (findODAConverter_first_match Scenario.decoy_then_converter); reflexivity.
Defined.

(** X4. Whatever [findODAConverter] returns, it leaves volumes, current
    directory, console input and pending child processes alone and changes
    no field of the object but [oda_converter_path]; on success the path
    stored is named ODAFileConverter.exe, on failure the object is as it
    was. *)
Theorem findODAConverter_result :
  forall s : State,
    let r := findODAConverter s in
    volumes (machine (snd r)) = volumes (machine s)
    /\ current_path (machine (snd r)) = current_path (machine s)
    /\ cin (machine (snd r)) = cin (machine s)
    /\ children (machine (snd r)) = children (machine s)
    /\ self (snd r)
       = set_oda_converter_path (oda_converter_path (self (snd r))) (self s)
    /\ (if fst r
        then filename (oda_converter_path (self (snd r))) = oda_name
        else self (snd r) = self s).
Proof.
  intros s r. subst r.
  destruct (find (fs_exists (machine s)) (oda_nearby (machine s))) as [p|] eqn:E.
  - rewrite (findODAConverter_nearby s p E). cbn [fst snd machine self].
    do 5 (split; [reflexivity|]).
    apply find_some in E. destruct E as [Hin _]. unfold oda_nearby in Hin.
    cbn [oda_converter_path set_oda_converter_path].
    apply in_app_or in Hin.
    destruct Hin as [Hin|[<-|[<-|[]]]]; try apply filename_append.
    destruct (has_parent_path _); [|destruct Hin].
    destruct Hin as [<-|[]]. apply filename_append.
  - rewrite (findODAConverter_far s E), search_drives_eq. cbn [fst snd machine self].
    rewrite (search_result_same (emits [EvGetLogicalDrives] (machine s)) (machine s)
               _ eq_refl).
    destruct (search_result (machine s) (available_drives (machine s)))
      as [[p|] walked] eqn:Er; cbn [fst snd].
    + do 4 (split; [reflexivity|]). split; [reflexivity|].
      destruct (search_result_some _ _ _ _ Er) as (d & e & _ & _ & Hacc & <-).
      unfold accepted in Hacc. rewrite !andb_true_iff, String.eqb_eq in Hacc.
      cbn [oda_converter_path set_oda_converter_path]. tauto.
    + do 4 (split; [reflexivity|]). split; [|reflexivity].
      destruct (self s); reflexivity.
Qed.

(** X5. [findPythonRenderer] never touches the machine (it enumerates and
    walks no drive).  It succeeds exactly when dxf_renderer.py exists in
    the current directory or in its parent, stores the path of the current
    directory when both exist, changes no other field, and on failure
    leaves the object as it was. *)
Theorem findPythonRenderer_result :
  forall s : State,
    let r := findPythonRenderer s in
    machine (snd r) = machine s
    /\ match find (fs_exists (machine s)) (renderer_nearby (machine s)) with
       | Some p =>
           fst r = true
           /\ self (snd r) = set_python_renderer_path p (self s)
           /\ filename p = renderer_name
       | None => r = (false, s)
       end.
Proof.
  intros s r. subst r.
  unfold findPythonRenderer, renderer_nearby, bind, ask, update, ret. cbn [find].
  destruct (fs_exists (machine s) (current_path (machine s) // renderer_name)).
  - cbn [fst snd machine]. repeat split. apply filename_append.
  - destruct (fs_exists (machine s)
                (parent_path (current_path (machine s)) // renderer_name)).
    + cbn [fst snd machine]. repeat split. apply filename_append.
    + split; reflexivity.
Qed.

(** ** The scan *)

(** X6. After a scan the candidate list holds exactly the paths of the
    regular files with extension ".dwg" among the entries walked on the
    available drives, each as often as it was walked: the list is a
    permutation of what the walks collect drive after drive. *)
Theorem findAllDWGFiles_exactly_walked :
  forall s : State,
    let files := all_dwg_files (self (snd (findAllDWGFiles s))) in
    let drives := fst (getAvailableDrives s) in
    Permutation files
      (flat_map
         (fun d =>
            map entry_path
              (filter (fun e => is_regular_file e
                                && String.eqb (extension (entry_path e)) ".dwg")
                 (entries_of (machine s) d)))
         drives)
    /\ forall p : path,
        In p files <->
        exists d e,
          In d drives /\ In e (entries_of (machine s) d)
          /\ is_regular_file e = true
          /\ extension (entry_path e) = ".dwg"
          /\ entry_path e = p.
Proof.
  intros s files drives. subst files drives.
  rewrite findAllDWGFiles_eq, getAvailableDrives_eq.
  cbn [fst snd self all_dwg_files set_all_dwg_files].
  generalize (available_drives (machine s)). intros drives.
  assert (HP : Permutation
                 (std_sort by_filename (scanned (machine s) drives))
                 (scanned (machine s) drives))
    by (apply Permutation_sym, std_sort_perm).
  split; [unfold scanned, dwg_paths, is_dwg in HP; exact HP|].
  intros p. split.
  - intros Hin. apply (Permutation_in _ HP) in Hin.
    unfold scanned in Hin. apply in_flat_map in Hin. destruct Hin as (d & Hd & Hin).
    unfold dwg_paths in Hin. apply in_map_iff in Hin. destruct Hin as (e & Hp & He).
    apply filter_In in He. destruct He as [He Hdwg].
    unfold is_dwg in Hdwg. apply andb_true_iff in Hdwg. destruct Hdwg as [Hreg Hext].
    apply String.eqb_eq in Hext. exists d, e. auto.
  - intros (d & e & Hd & He & Hreg & Hext & Hp).
    apply (Permutation_in _ (Permutation_sym HP)).
    unfold scanned. apply in_flat_map. exists d. split; [exact Hd|].
    unfold dwg_paths. apply in_map_iff. exists e. split; [exact Hp|].
    apply filter_In. split; [exact He|].
    unfold is_dwg. rewrite Hreg. now apply String.eqb_eq in Hext as ->.
Qed.

(** X7. The loop over the drives only appends to the candidate list, and
    the total it returns is the total it was given plus the number of
    files it appended. *)
Theorem scan_drives_total :
  forall (drives : list string) (total : Z) (s : State),
  exists added : list path,
    all_dwg_files (self (snd (scan_drives drives total s)))
    = all_dwg_files (self s) ++ added
    /\ fst (scan_drives drives total s) = (total + Z.of_nat (List.length added))%Z.
Proof.
  intros drives total s. exists (scanned (machine s) drives).
  rewrite scan_drives_eq. split; reflexivity.
Qed.

(** X8. A scan opens one iterator on every available drive, in drive
    order, whatever the walks of the drives before met; it leaves volumes,
    current directory, console input and pending child processes alone and
    changes no field of the object but the candidate list. *)
Theorem findAllDWGFiles_walks_every_drive :
  forall s : State,
    let s' := snd (findAllDWGFiles s) in
    log (machine s')
    = log (machine s) ++ EvGetLogicalDrives :: map EvIterate (fst (getAvailableDrives s))
    /\ volumes (machine s') = volumes (machine s)
    /\ current_path (machine s') = current_path (machine s)
    /\ cin (machine s') = cin (machine s)
    /\ children (machine s') = children (machine s)
    /\ self s' = set_all_dwg_files (all_dwg_files (self s')) (self s).
Proof.
  intros s s'. subst s'. rewrite findAllDWGFiles_eq, getAvailableDrives_eq.
  cbn [fst snd machine self emits volumes current_path cin children log
         all_dwg_files set_all_dwg_files].
  repeat (split; [reflexivity|]). reflexivity.
Qed.

(** ** The listing *)

Lemma number_files_spec (n : Z) (files : list path) :
  map snd (fst (number_files n files)) = files
  /\ map fst (fst (number_files n files)) = numbers_from n (List.length files)
  /\ snd (number_files n files) = (n + Z.of_nat (List.length files))%Z.
Proof.
  revert n; induction files as [|f files IH]; intros n.
  - cbn. repeat split. lia.
  - cbn [number_files]. destruct (IH (n + 1)%Z) as (H1 & H2 & H3).
    destruct (number_files (n + 1) files) as [lines k].
    cbn [fst snd map List.length numbers_from] in *.
    rewrite H1, H2, H3. repeat split. lia.
Qed.

Lemma numbers_from_app (n : Z) (a b : nat) :
  numbers_from n (a + b) = numbers_from n a ++ numbers_from (n + Z.of_nat a) b.
Proof.
  revert n; induction a as [|a IH]; intros n.
  - cbn. now rewrite Z.add_0_r.
  - cbn [Nat.add numbers_from app]. rewrite IH. do 3 f_equal. lia.
Qed.

Lemma number_groups_spec (n : Z) (grouped : list (path * list path)) :
  map snd (number_groups n grouped) = List.concat (map snd grouped)
  /\ map fst (number_groups n grouped)
     = numbers_from n (List.length (List.concat (map snd grouped))).
Proof.
  revert n; induction grouped as [|[k files] grouped IH]; intros n.
  - split; reflexivity.
  - cbn [number_groups map List.concat snd].
    destruct (number_files_spec n files) as (H1 & H2 & H3).
    destruct (number_files n files) as [lines n'].
    cbn [fst snd] in *. destruct (IH n') as [G1 G2].
    rewrite !map_app, H1, H2, G1, G2, length_app, numbers_from_app, H3.
    split; reflexivity.
Qed.

Lemma map_push_perm (k v : path) (grouped : list (path * list path)) :
  Permutation (List.concat (map snd (map_push k v grouped)))
    (v :: List.concat (map snd grouped)).
Proof.
  induction grouped as [|[k' vs] grouped IH]; cbn [map_push].
  - reflexivity.
  - destruct (Path.compare k k'); cbn [map List.concat snd app].
    + rewrite <- app_assoc. cbn [app]. symmetry. apply Permutation_middle.
    + reflexivity.
    + rewrite IH. symmetry. apply Permutation_middle.
Qed.

Lemma group_fold_perm (files : list path) (acc : list (path * list path)) :
  Permutation
    (List.concat (map snd
       (fold_left (fun grouped file => map_push (parent_path file) file grouped)
          files acc)))
    (List.concat (map snd acc) ++ files).
Proof.
  revert acc; induction files as [|f files IH]; intros acc; cbn [fold_left].
  - now rewrite app_nil_r.
  - rewrite IH, map_push_perm. apply Permutation_middle.
Qed.

(** X9. The listing shows every file of the candidate list exactly once,
    numbered 1, 2, ..., N from the top. *)
Theorem listing_numbers_every_file_once :
  forall files : list path,
    map fst (listing files) = numbers_from 1 (List.length files)
    /\ Permutation (map snd (listing files)) files.
Proof.
  intros files. unfold listing.
  destruct (number_groups_spec 1 (group_by_parent files)) as [H1 H2].
  assert (HP : Permutation (List.concat (map snd (group_by_parent files))) files)
    by apply (group_fold_perm files []).
  rewrite H1, H2. split; [|exact HP].
  f_equal. now apply Permutation_length.
Qed.

Lemma string_compare_refl (a : string) : String.compare a a = Eq.
Proof.
  pose proof (String.compare_antisym a a) as H.
  destruct (String.compare a a); cbn in H; congruence.
Qed.

Lemma compare_elems_refl (l : list string) : Path.compare_elems l l = Eq.
Proof.
  induction l as [|a l IH]; cbn; [reflexivity|]. now rewrite string_compare_refl.
Qed.

Lemma path_compare_refl (p : path) : Path.compare p p = Eq.
Proof.
  unfold Path.compare. now rewrite string_compare_refl, compare_elems_refl.
Qed.

Lemma group_fold_one_directory (dir : path) (files acc : list path) :
  (forall f, In f files -> parent_path f = dir) ->
  fold_left (fun grouped file => map_push (parent_path file) file grouped)
    files [(dir, acc)]
  = [(dir, acc ++ files)].
Proof.
  revert acc; induction files as [|f files IH]; intros acc Hdir; cbn [fold_left].
  - now rewrite app_nil_r.
  - rewrite (Hdir f (or_introl eq_refl)). cbn [map_push].
    rewrite path_compare_refl, IH, <- app_assoc; [reflexivity|].
    intros g Hg. apply Hdir. now right.
Qed.

Lemma number_files_In (k : Z) (files : list path) (n : Z) (f : path) :
  In (n, f) (fst (number_files k files)) ->
  (k <= n < k + Z.of_nat (List.length files))%Z
  /\ nth (Z.to_nat (n - k)) files empty_path = f.
Proof.
  revert k; induction files as [|f0 files IH]; intros k; cbn [number_files].
  - intros [].
  - specialize (IH (k + 1)%Z). destruct (number_files (k + 1) files) as [lines k'].
    cbn [fst In List.length] in *. intros [H|H].
    + inversion H; subst. rewrite Z.sub_diag. cbn. split; [lia|reflexivity].
    + destruct (IH H) as [Hr Hn]. split; [lia|].
      replace (Z.to_nat (n - k)) with (S (Z.to_nat (n - (k + 1)))) by lia.
      exact Hn.
Qed.

(** X10. When all the files of the candidate list lie in one directory,
    the number the listing shows next to a file is the number that selects
    it: line [n] shows the file at index [n - 1] of the list. *)
Theorem listing_matches_selection_in_one_directory :
  forall (files : list path) (dir : path),
    (forall f, In f files -> parent_path f = dir) ->
    forall (n : Z) (f : path),
      In (n, f) (listing files) ->
      (1 <= n <= Z.of_nat (List.length files))%Z
      /\ nth (Z.to_nat (n - 1)) files empty_path = f.
Proof.
  intros files dir Hdir n f. unfold listing, group_by_parent.
  destruct files as [|f0 files]; [intros []|].
  cbn [fold_left map_push].
  rewrite (Hdir f0 (or_introl eq_refl)), group_fold_one_directory
    by (intros g Hg; apply Hdir; now right).
  cbn [number_groups app].
  pose proof (number_files_In 1 (f0 :: files) n f) as H.
  destruct (number_files 1 (f0 :: files)) as [lines k]. cbn [fst] in H.
  rewrite app_nil_r. intros Hin. destruct (H Hin) as [Hr Hn]. split; [lia|exact Hn].
Qed.

Lemma listing_matches_selection_in_one_directory_witness :
  let files := [mkpath "D:\" ["proj"; "a.dwg"]; mkpath "D:\" ["proj"; "b.dwg"]] in
  In (2%Z, mkpath "D:\" ["proj"; "b.dwg"]) (listing files)
  /\ (1 <= 2 <= Z.of_nat (List.length files))%Z
  /\ nth (Z.to_nat (2 - 1)) files empty_path = mkpath "D:\" ["proj"; "b.dwg"].
Proof.
  assert (Hin : In (2%Z, mkpath "D:\" ["proj"; "b.dwg"])
                  (listing [mkpath "D:\" ["proj"; "a.dwg"];
                            mkpath "D:\" ["proj"; "b.dwg"]]))
    by (right; left; reflexivity).
  split; [exact Hin|].
  apply (listing_matches_selection_in_one_directory
           [mkpath "D:\" ["proj"; "a.dwg"]; mkpath "D:\" ["proj"; "b.dwg"]]
           (mkpath "D:\" ["proj"])); [|exact Hin].
  intros f [<-|[<-|[]]]; reflexivity.
Defined.

(** ** The order on paths and the groups of the listing *)

Section PathOrder.

Lemma string_compare_lt_trans (a b c : string) :
  String.compare a b = Lt -> String.compare b c = Lt -> String.compare a c = Lt.
Proof.
  revert b c; induction a as [|x a IH]; intros [|y b] [|z c]; simpl; try congruence.
  rewrite !ascii_compare_N.
  destruct (N.compare_spec (N_of_ascii x) (N_of_ascii y)) as [Hxy|Hxy|Hxy];
    destruct (N.compare_spec (N_of_ascii y) (N_of_ascii z)) as [Hyz|Hyz|Hyz];
    try congruence; intros Hab Hbc.
  - rewrite Hxy, Hyz, N.compare_refl. now apply IH with b.
  - rewrite Hxy. now apply N.compare_lt_iff in Hyz as ->.
  - rewrite <- Hyz. now apply N.compare_lt_iff in Hxy as ->.
  - assert (H : (N_of_ascii x < N_of_ascii z)%N) by lia.
    now apply N.compare_lt_iff in H as ->.
Qed.

Lemma compare_elems_eq (l1 l2 : list string) :
  Path.compare_elems l1 l2 = Eq -> l1 = l2.
Proof.
  revert l2; induction l1 as [|a l1 IH]; intros [|b l2]; simpl; try congruence.
  destruct (String.compare a b) eqn:E; try discriminate.
  apply String.compare_eq_iff in E. intros H. now rewrite E, (IH _ H).
Qed.

Lemma compare_elems_lt_trans (l1 l2 l3 : list string) :
  Path.compare_elems l1 l2 = Lt -> Path.compare_elems l2 l3 = Lt ->
  Path.compare_elems l1 l3 = Lt.
Proof.
  revert l2 l3; induction l1 as [|a l1 IH]; intros [|b l2] [|c l3]; simpl;
    try congruence.
  destruct (String.compare a b) eqn:Eab; try discriminate;
    destruct (String.compare b c) eqn:Ebc; try discriminate; intros H1 H2.
  - apply String.compare_eq_iff in Eab, Ebc. subst.
    rewrite string_compare_refl. now apply IH with l2.
  - apply String.compare_eq_iff in Eab. subst. now rewrite Ebc.
  - apply String.compare_eq_iff in Ebc. subst. now rewrite Eab.
  - now rewrite (string_compare_lt_trans _ _ _ Eab Ebc).
Qed.

Lemma compare_elems_antisym (l1 l2 : list string) :
  Path.compare_elems l1 l2 = CompOpp (Path.compare_elems l2 l1).
Proof.
  revert l2; induction l1 as [|a l1 IH]; intros [|b l2]; simpl; try reflexivity.
  rewrite (String.compare_antisym a b), IH.
  now destruct (String.compare b a).
Qed.

Lemma path_compare_eq (p q : path) : Path.compare p q = Eq -> p = q.
Proof.
  unfold Path.compare. destruct p as [rp ep], q as [rq eq]. simpl.
  destruct (String.compare rp rq) eqn:E; try discriminate.
  apply String.compare_eq_iff in E. intros H. apply compare_elems_eq in H. congruence.
Qed.

Lemma path_compare_lt_trans (p q r : path) :
  Path.compare p q = Lt -> Path.compare q r = Lt -> Path.compare p r = Lt.
Proof.
  unfold Path.compare.
  destruct (String.compare (root p) (root q)) eqn:Epq; try discriminate;
    destruct (String.compare (root q) (root r)) eqn:Eqr; try discriminate;
    intros H1 H2.
  - apply String.compare_eq_iff in Epq, Eqr. rewrite Epq, Eqr, string_compare_refl.
    now apply compare_elems_lt_trans with (elems q).
  - apply String.compare_eq_iff in Epq. now rewrite Epq, Eqr.
  - apply String.compare_eq_iff in Eqr. now rewrite <- Eqr, Epq.
  - now rewrite (string_compare_lt_trans _ _ _ Epq Eqr).
Qed.

Lemma path_compare_antisym (p q : path) :
  Path.compare p q = CompOpp (Path.compare q p).
Proof.
  unfold Path.compare.
  rewrite (String.compare_antisym (root p) (root q)), compare_elems_antisym.
  now destruct (String.compare (root q) (root p)).
Qed.

Lemma list_eqb_eq (l1 l2 : list string) : Path.list_eqb l1 l2 = true <-> l1 = l2.
Proof.
  revert l2; induction l1 as [|a l1 IH]; intros [|b l2]; simpl;
    try (split; congruence).
  rewrite andb_true_iff, String.eqb_eq, IH. split; [intros [-> ->]|intros H; inversion H]; auto.
Qed.

Lemma path_eqb_eq (p q : path) : Path.eqb p q = true <-> p = q.
Proof.
  unfold Path.eqb. rewrite andb_true_iff, String.eqb_eq, list_eqb_eq.
  destruct p, q; simpl. split; [intros [-> ->]|intros H; inversion H]; auto.
Qed.

Lemma path_eqb_refl (p : path) : Path.eqb p p = true.
Proof. now apply path_eqb_eq. Qed.

Lemma path_lt_neq (p q : path) : Path.compare p q = Lt -> Path.eqb q p = false.
Proof.
  intros H. destruct (Path.eqb q p) eqn:E; [|reflexivity].
  apply path_eqb_eq in E. subst. rewrite path_compare_refl in H. discriminate.
Qed.

End PathOrder.

Lemma map_push_keys (k v : path) (grouped : list (path * list path)) (x : path * list path) :
  In x (map_push k v grouped) ->
  fst x = k \/ exists y, In y grouped /\ fst y = fst x.
Proof.
  induction grouped as [|[k' vs] grouped IH]; cbn [map_push].
  - intros [<-|[]]. now left.
  - destruct (Path.compare k k') eqn:E.
    + intros [<-|Hin]; right; [exists (k', vs)|exists x]; split; auto;
        [now left|now right].
    + intros [<-|Hin]; [now left|]. right. exists x. auto.
    + intros [<-|Hin]; [right; exists (k', vs); split; auto; now left|].
      destruct (IH Hin) as [H|(y & Hy & H)]; [now left|].
      right. exists y. split; auto. now right.
Qed.

Lemma map_push_ascending (k v : path) (grouped : list (path * list path)) :
  keys_ascending grouped -> keys_ascending (map_push k v grouped).
Proof.
  unfold keys_ascending, Path.ltb.
  induction 1 as [|[k' vs] grouped Hs IH Hall]; cbn [map_push].
  - repeat constructor.
  - destruct (Path.compare k k') eqn:E.
    + apply path_compare_eq in E. subst k'. constructor; [exact Hs|exact Hall].
    + constructor; [now constructor|]. constructor; [cbn [fst]; now rewrite E|].
      eapply Forall_impl; [|exact Hall]. cbn [fst]. intros y Hy.
      destruct (Path.compare k' (fst y)) eqn:E'; try discriminate.
      now rewrite (path_compare_lt_trans _ _ _ E E').
    + constructor; [exact IH|]. apply Forall_forall. intros x Hx. cbn [fst].
      destruct (map_push_keys _ _ _ _ Hx) as [->|(y & Hy & <-)].
      * rewrite path_compare_antisym, E. reflexivity.
      * rewrite Forall_forall in Hall. exact (Hall y Hy).
Qed.

Lemma files_under_above (k : path) (grouped : list (path * list path)) :
  Forall (fun g => Path.compare k (fst g) = Lt) grouped -> files_under k grouped = [].
Proof.
  unfold files_under. induction 1 as [|[k' vs] grouped Hk Hall IH]; cbn [find fst].
  - reflexivity.
  - cbn [fst] in Hk. now rewrite (path_lt_neq _ _ Hk).
Qed.

Lemma files_under_push (k0 k v : path) (grouped : list (path * list path)) :
  keys_ascending grouped ->
  files_under k0 (map_push k v grouped)
  = files_under k0 grouped ++ (if Path.eqb k k0 then [v] else []).
Proof.
  unfold keys_ascending, Path.ltb.
  induction 1 as [|[k' vs] grouped Hs IH Hall]; cbn [map_push].
  - unfold files_under. cbn [find fst]. now destruct (Path.eqb k k0).
  - destruct (Path.compare k k') eqn:E.
    + apply path_compare_eq in E. subst k'. unfold files_under. cbn [find fst].
      destruct (Path.eqb k k0); [reflexivity|now rewrite app_nil_r].
    + unfold files_under at 1. cbn [find fst].
      destruct (Path.eqb k k0) eqn:Ek.
      * apply path_eqb_eq in Ek. subst k0. rewrite files_under_above; [reflexivity|].
        constructor; [exact E|]. eapply Forall_impl; [|exact Hall]. cbn [fst].
        intros y Hy. destruct (Path.compare k' (fst y)) eqn:E'; try discriminate.
        exact (path_compare_lt_trans _ _ _ E E').
      * now rewrite app_nil_r.
    + unfold files_under in *. cbn [find fst].
      destruct (Path.eqb k' k0) eqn:Ek'.
      * apply path_eqb_eq in Ek'. subst k0.
        assert (Hlt : Path.compare k' k = Lt) by (rewrite path_compare_antisym, E; reflexivity).
        now rewrite (path_lt_neq _ _ Hlt), app_nil_r.
      * exact IH.
Qed.

Lemma map_push_nonempty (k v : path) (grouped : list (path * list path)) :
  Forall (fun g => snd g <> []) grouped ->
  Forall (fun g => snd g <> []) (map_push k v grouped).
Proof.
  induction 1 as [|[k' vs] grouped Hne Hall IH]; cbn [map_push].
  - repeat constructor. discriminate.
  - destruct (Path.compare k k').
    + constructor; [|exact Hall]. cbn [snd]. now destruct vs.
    + constructor; [cbn; discriminate|]. now constructor.
    + now constructor.
Qed.

(** X11. The listing groups the candidate list like this: the directories
    come in strictly ascending order of path, each once and none without a
    file; under a directory come exactly the files of the candidate list
    whose parent it is, in the order of the candidate list. *)
Theorem group_by_parent_partitions :
  forall files : list path,
    keys_ascending (group_by_parent files)
    /\ Forall (fun g => snd g <> []) (group_by_parent files)
    /\ forall k : path,
        files_under k (group_by_parent files)
        = filter (fun f => Path.eqb (parent_path f) k) files.
Proof.
  intros files. unfold group_by_parent.
  assert (H : forall acc done,
             keys_ascending acc ->
             Forall (fun g => snd g <> []) acc ->
             (forall k, files_under k acc
                        = filter (fun f => Path.eqb (parent_path f) k) done) ->
             let res := fold_left
                          (fun grouped file => map_push (parent_path file) file grouped)
                          files acc in
             keys_ascending res
             /\ Forall (fun g => snd g <> []) res
             /\ forall k, files_under k res
                          = filter (fun f => Path.eqb (parent_path f) k) (done ++ files)).
  { induction files as [|f files IH]; intros acc done Hs Hne Hk; cbn [fold_left].
    - rewrite app_nil_r. auto.
    - replace (done ++ f :: files) with ((done ++ [f]) ++ files)
        by (now rewrite <- app_assoc).
      apply IH.
      + now apply map_push_ascending.
      + now apply map_push_nonempty.
      + intros k. rewrite files_under_push, Hk, filter_app by exact Hs.
        cbn [filter]. reflexivity. }
  apply (H [] []); [constructor|constructor|reflexivity].
Qed.

(** ** The two stages *)

(** Stage 1 in full: what it returns, logs and leaves behind, by whether
    the converter starts. *)
Lemma convertDWGtoDXF_cases (dwg_file output_dxf : path) (s : State) :
  let r := convertDWGtoDXF dwg_file output_dxf s in
  let dxf_dir := parent_path dwg_file // "convertedDXF" in
  let expected := dxf_dir // (stem dwg_file ++ ".dxf")%string in
  output_dxf_dir (self (snd r)) = dxf_dir
  /\ output_pdf_dir (self (snd r)) = output_pdf_dir (self s)
  /\ exists cmd : string,
      match children (machine s) with
      | Some pi :: rest =>
          fst r = (fs_exists (machine (snd r)) expected, expected)
          /\ children (machine (snd r)) = rest
          /\ log (machine (snd r))
             = log (machine s)
               ++ [EvCreateDirectories dxf_dir;
                   EvCreateProcess cmd
                     (Some (parent_path (oda_converter_path (self s))));
                   EvWait 120000]
      | rest =>
          fst r = (false, output_dxf)
          /\ children (machine (snd r)) = tl rest
          /\ log (machine (snd r))
             = log (machine s)
               ++ [EvCreateDirectories dxf_dir;
                   EvCreateProcess cmd
                     (Some (parent_path (oda_converter_path (self s))))]
      end.
Proof.
  unfold convertDWGtoDXF, bind, update, field, sys, ask, ret.
  cbn [machine self output_dxf_dir set_output_dxf_dir create_directories snd fst
         oda_converter_path].
  unfold CreateProcessW.
  cbn [children emit with_volumes volumes current_path cin log].
  destruct (children (machine s)) as [|[pi|] rest] eqn:Ec;
    unfold WaitForSingleObject;
    cbn [snd fst self machine log output_pdf_dir output_dxf_dir set_output_dxf_dir
           emit with_volumes volumes current_path cin children tl];
    repeat match goal with
           | |- context [if fs_exists ?m ?q then _ else _] =>
               destruct (fs_exists m q) eqn:E
           end;
    cbn [snd fst self machine log output_pdf_dir output_dxf_dir set_output_dxf_dir
           emit with_volumes volumes current_path cin children tl];
    (split; [reflexivity|]); (split; [reflexivity|]); eexists;
    (split; [first [reflexivity | symmetry; exact E | f_equal; symmetry; exact E]|]);
    (split; [first [reflexivity | exact Ec]|rewrite <- ?app_assoc; reflexivity]).
Qed.

(** Stage 2 in full. *)
Lemma renderDXFtoPDF_cases (dxf_file dwg_file : path) (s : State) :
  let r := renderDXFtoPDF dxf_file dwg_file s in
  let pdf_dir := parent_path dwg_file // "convertedPDF" in
  let expected := pdf_dir // (stem dwg_file ++ ".pdf")%string in
  output_pdf_dir (self (snd r)) = pdf_dir
  /\ output_dxf_dir (self (snd r)) = output_dxf_dir (self s)
  /\ exists cmd : string,
      match children (machine s) with
      | Some pi :: rest =>
          fst r = (Z.eqb (GetExitCodeProcess pi) 0
                   && fs_exists (machine (snd r)) expected)
          /\ children (machine (snd r)) = rest
          /\ log (machine (snd r))
             = log (machine s)
               ++ [EvCreateDirectories pdf_dir; EvCreateProcess cmd None;
                   EvWait 300000]
      | rest =>
          fst r = false
          /\ children (machine (snd r)) = tl rest
          /\ log (machine (snd r))
             = log (machine s)
               ++ [EvCreateDirectories pdf_dir; EvCreateProcess cmd None]
      end.
Proof.
  unfold renderDXFtoPDF, bind, update, field, sys, ask, ret.
  cbn [machine self output_pdf_dir set_output_pdf_dir create_directories snd fst
         python_renderer_path].
  unfold CreateProcessW.
  cbn [children emit with_volumes volumes current_path cin log].
  destruct (children (machine s)) as [|[pi|] rest] eqn:Ec;
    unfold WaitForSingleObject;
    cbn [snd fst self machine log output_pdf_dir output_dxf_dir set_output_pdf_dir
           emit with_volumes volumes current_path cin children tl];
    repeat match goal with
           | |- context [if ?b && fs_exists ?m ?q then _ else _] =>
               destruct (fs_exists m q) eqn:E; destruct b
           end;
    cbn [snd fst self machine log output_pdf_dir output_dxf_dir set_output_pdf_dir
           emit with_volumes volumes current_path cin children tl andb];
    (split; [reflexivity|]); (split; [reflexivity|]); eexists;
    (split; [first [reflexivity | symmetry; exact E | f_equal; symmetry; exact E]|]);
    (split; [first [reflexivity | exact Ec]|rewrite <- ?app_assoc; reflexivity]).
Qed.

(** X12. Stage 1 returns [true] exactly when the converter could be
    started and the file <directory of the drawing>\convertedDXF\<stem>.dxf
    exists once the wait is over; it then returns that path.  The exit code
    of the converter and the outcome of the wait have no part in it.  When
    the converter cannot be started the path passed in comes back
    unchanged.  [output_dxf_dir] is set in both cases. *)
Theorem convertDWGtoDXF_succeeds_iff :
  forall (dwg_file output_dxf : path) (s : State),
    let r := convertDWGtoDXF dwg_file output_dxf s in
    let expected :=
      parent_path dwg_file // "convertedDXF" // (stem dwg_file ++ ".dxf")%string in
    (fst (fst r) = true <->
     (exists pi rest, children (machine s) = Some pi :: rest)
     /\ fs_exists (machine (snd r)) expected = true)
    /\ snd (fst r)
       = match children (machine s) with
         | Some _ :: _ => expected
         | _ => output_dxf
         end
    /\ output_dxf_dir (self (snd r)) = parent_path dwg_file // "convertedDXF".
Proof.
  intros dwg_file output_dxf s r expected.
  destruct (convertDWGtoDXF_cases dwg_file output_dxf s) as (Hd & _ & cmd & H).
  fold r in Hd, H. fold expected in H.
  destruct (children (machine s)) as [|[pi|] rest].
  - destruct H as (Hr & _). rewrite Hr. cbn [fst snd].
    split; [split; [discriminate|intros [(pi & rest & Hc) _]; discriminate Hc]|].
    split; [reflexivity|exact Hd].
  - destruct H as (Hr & _). rewrite Hr. cbn [fst snd].
    split; [split; [intros Hex; split; [now exists pi, rest|exact Hex]
                   |intros [_ Hex]; exact Hex]|].
    split; [reflexivity|exact Hd].
  - destruct H as (Hr & _). rewrite Hr. cbn [fst snd].
    split; [split; [discriminate|intros [(pi & rest' & Hc) _]; discriminate Hc]|].
    split; [reflexivity|exact Hd].
Qed.

(** X13. Stage 2 returns [true] exactly when the renderer could be started,
    has exited with code 0 by the end of the wait, and the file
    <directory of the drawing>\convertedPDF\<stem>.pdf exists then.  A
    renderer still running after the wait makes it fail, whatever exists. *)
Theorem renderDXFtoPDF_succeeds_iff :
  forall (dxf_file dwg_file : path) (s : State),
    let r := renderDXFtoPDF dxf_file dwg_file s in
    let expected :=
      parent_path dwg_file // "convertedPDF" // (stem dwg_file ++ ".pdf")%string in
    (fst r = true <->
     (exists ws rest, children (machine s) = Some (Exits 0 ws) :: rest)
     /\ fs_exists (machine (snd r)) expected = true)
    /\ (forall ws rest, children (machine s) = Some (Hangs ws) :: rest ->
                        fst r = false)
    /\ output_pdf_dir (self (snd r)) = parent_path dwg_file // "convertedPDF".
Proof.
  intros dxf_file dwg_file s r expected.
  destruct (renderDXFtoPDF_cases dxf_file dwg_file s) as (Hd & _ & cmd & H).
  fold r in Hd, H. fold expected in H.
  destruct (children (machine s)) as [|[pi|] rest].
  - destruct H as (Hr & _). rewrite Hr.
    split; [split; [discriminate|intros [(ws & rest & Hc) _]; discriminate Hc]|].
    split; [intros ws rest Hc; discriminate Hc|exact Hd].
  - destruct H as (Hr & _). rewrite Hr. split; [|split; [|exact Hd]].
    + rewrite andb_true_iff. split.
      * intros [Hcode Hex]. split; [|exact Hex].
        destruct pi as [code ws|ws]; cbn [GetExitCodeProcess] in Hcode.
        -- apply Z.eqb_eq in Hcode. subst. now exists ws, rest.
        -- discriminate.
      * intros [(ws & rest' & Hc) Hex]. inversion Hc; subst. now split.
    + intros ws rest' Hc. inversion Hc; subst. reflexivity.
  - destruct H as (Hr & _). rewrite Hr.
    split; [split; [discriminate|intros [(ws & rest' & Hc) _]; discriminate Hc]|].
    split; [intros ws rest' Hc; discriminate Hc|exact Hd].
Qed.

(** ** The run as a whole *)

Lemma convert_file_cases (f : path) (s : State) :
  convert_file f s =
    if fst (fst (convertDWGtoDXF f empty_path s))
    then renderDXFtoPDF (snd (fst (convertDWGtoDXF f empty_path s))) f
           (snd (convertDWGtoDXF f empty_path s))
    else (false, snd (convertDWGtoDXF f empty_path s)).
Proof.
  unfold convert_file, bind, ret.
  destruct (convertDWGtoDXF f empty_path s) as [[[] dxf] s1]; cbn [fst snd negb];
    [|reflexivity].
  now destruct (renderDXFtoPDF dxf f s1) as [[] s2].
Qed.


Lemma choose_file_log (s : State) :
  exists q, log (machine (snd (choose_file s))) = log (machine s) ++ q
            /\ Forall quiet q.
Proof.
  destruct (choose_file_inv s) as (s4 & Q & [(_ & -> & _)|(_ & -> & _)]);
    destruct Q as (_ & _ & _ & _ & _ & q & L & F); exists q; split; auto.
  cbn [machine]. destruct (cin_int_frame (machine s4)) as (_ & _ & ->). exact L.
Qed.


Lemma convert_file_true (f : path) (s : State) :
  fst (convert_file f s) = true ->
  (exists pi ws rest, children (machine s) = Some pi :: Some (Exits 0 ws) :: rest)
  /\ fs_exists (machine (snd (convert_file f s)))
       (parent_path f // "convertedPDF" // (stem f ++ ".pdf")%string) = true
  /\ output_dxf_dir (self (snd (convert_file f s))) = parent_path f // "convertedDXF"
  /\ output_pdf_dir (self (snd (convert_file f s))) = parent_path f // "convertedPDF".
Proof.
  rewrite convert_file_cases.
  destruct (convertDWGtoDXF_cases f empty_path s) as (Hd1 & _ & cmd1 & H1).
  destruct (children (machine s)) as [|[pi|] rest1];
    destruct H1 as (Hr & Hc & _); rewrite Hr; cbn [fst snd]; try discriminate.
  destruct (fs_exists _ _); [|discriminate].
  destruct (renderDXFtoPDF_cases
              (parent_path f // "convertedDXF" // (stem f ++ ".dxf")%string) f
              (snd (convertDWGtoDXF f empty_path s))) as (Hp2 & Hd2 & cmd2 & H2).
  rewrite Hc in H2.
  destruct rest1 as [|[pi2|] rest2]; destruct H2 as (Hr2 & _);
    rewrite Hr2; try discriminate.
  rewrite andb_true_iff. intros [Hcode Hex].
  split; [|split; [exact Hex|split; [congruence|exact Hp2]]].
  destruct pi2 as [code ws|ws]; cbn [GetExitCodeProcess] in Hcode; [|discriminate].
  apply Z.eqb_eq in Hcode. subst. now exists pi, ws, rest2.
Qed.

(** X15. [run] returns [true] only if the number read selects a file of
    the candidate list, two child processes were started, the second of
    which (the renderer) exited with code 0, and at the end the PDF exists
    as <directory of the selected file>\convertedPDF\<stem>.pdf. *)
Theorem run_true_means_pdf :
  forall s : State,
    fst (run s) = true ->
    let c := fst (cin_int (machine s)) in
    let files := all_dwg_files (self (snd (findAllDWGFiles s))) in
    let f := nth (Z.to_nat (c - 1)) files empty_path in
    (1 <= c <= Z.of_nat (List.length files))%Z
    /\ (exists pi ws rest,
           children (machine s) = Some pi :: Some (Exits 0 ws) :: rest)
    /\ fs_exists (machine (snd (run s)))
         (parent_path f // "convertedPDF" // (stem f ++ ".pdf")%string) = true
    /\ output_dxf_dir (self (snd (run s))) = parent_path f // "convertedDXF"
    /\ output_pdf_dir (self (snd (run s))) = parent_path f // "convertedPDF".
Proof.
  intros s Hrun c files f. subst c files f.
  destruct (findAllDWGFiles_quiet s) as [_ ->].
  rewrite run_steps in Hrun |- *.
  destruct (choose_file_inv s) as (s4 & Q & [(Hnone & _)|(_ & Hsnd & Hfst)]).
  - rewrite Hnone in Hrun. discriminate.
  - cbv zeta in Hfst.
    destruct ((fst (cin_int (machine s)) <=? 0)%Z || _) eqn:Hrej;
      rewrite Hfst in Hrun |- *; [discriminate|].
    assert (Hrange : (1 <= fst (cin_int (machine s))
                      <= Z.of_nat (List.length (candidates (machine s))))%Z).
    { destruct (Z_le_gt_dec (fst (cin_int (machine s))) 0) as [H|H].
      - assert (Hb : (fst (cin_int (machine s)) <=? 0)%Z
                     || (to_size_t (fst (cin_int (machine s)))
                         >? Z.of_nat (List.length (candidates (machine s))))%Z = true)
          by (apply rejected_iff; [apply cin_int_range|now left]).
        congruence.
      - destruct (Z_le_gt_dec (fst (cin_int (machine s)))
                    (Z.of_nat (List.length (candidates (machine s))))) as [H'|H'];
          [lia|].
        assert (Hb : (fst (cin_int (machine s)) <=? 0)%Z
                     || (to_size_t (fst (cin_int (machine s)))
                         >? Z.of_nat (List.length (candidates (machine s))))%Z = true)
          by (apply rejected_iff; [apply cin_int_range|now right]).
        congruence. }
    split; [exact Hrange|].
    destruct (convert_file_true _ _ Hrun) as ((pi & ws & rest & Hc) & Hex & Hd & Hp).
    split; [|auto].
    exists pi, ws, rest. rewrite <- Hc, Hsnd. cbn [machine].
    destruct (cin_int_frame (machine s4)) as (_ & -> & _).
    destruct Q as (_ & _ & K & _). now rewrite K.
Qed.

Lemma run_true_means_pdf_witness :
  let s := Scenario.two_directories [1%Z]
             [Some (Exits 0 [mkpath "D:\" ["b"; "convertedDXF"; "a.dxf"]]);
              Some (Exits 0 [mkpath "D:\" ["b"; "convertedPDF"; "a.pdf"]])] in
  let c := fst (cin_int (machine s)) in
  let files := all_dwg_files (self (snd (findAllDWGFiles s))) in
  let f := nth (Z.to_nat (c - 1)) files empty_path in
  fst (run s) = true
  /\ (1 <= c <= Z.of_nat (List.length files))%Z
  /\ (exists pi ws rest,
         children (machine s) = Some pi :: Some (Exits 0 ws) :: rest)
  /\ fs_exists (machine (snd (run s)))
       (parent_path f // "convertedPDF" // (stem f ++ ".pdf")%string) = true
  /\ output_dxf_dir (self (snd (run s))) = parent_path f // "convertedDXF"
  /\ output_pdf_dir (self (snd (run s))) = parent_path f // "convertedPDF".
Proof.
  split; [vm_compute; reflexivity|].
  apply (run_true_means_pdf
           (Scenario.two_directories [1%Z]
              [Some (Exits 0 [mkpath "D:\" ["b"; "convertedDXF"; "a.dxf"]]);
               Some (Exits 0 [mkpath "D:\" ["b"; "convertedPDF"; "a.pdf"]])])).
  vm_compute. reflexivity.
Defined.

Lemma choose_file_cases (s : State) :
  let r1 := findODAConverter s in
  let r2 := findPythonRenderer (snd r1) in
  let s3 := snd (findAllDWGFiles (snd r2)) in
  let s4 := snd (displayDWGFiles s3) in
  let c := fst (cin_int (machine s4)) in
  let files := all_dwg_files (self s3) in
  choose_file s =
    if negb (fst r1) then (None, snd r1)
    else if negb (fst r2) then (None, snd r2)
    else match files with
         | [] => (None, s3)
         | _ :: _ =>
             (if (c <=? 0)%Z || (to_size_t c >? Z.of_nat (List.length files))%Z
              then None
              else Some (nth (Z.to_nat (c - 1)) files empty_path),
              mkState (snd (cin_int (machine s4))) (self s4))
         end.
Proof.
  unfold choose_file, bind, ret, field, sys.
  destruct (findODAConverter s) as [[] s1]; cbn [negb fst snd]; [|reflexivity].
  destruct (findPythonRenderer s1) as [[] s2]; cbn [negb fst snd]; [|reflexivity].
  destruct (findAllDWGFiles s2) as [[] s3]; cbn [fst snd].
  destruct (all_dwg_files (self s3)) as [|f0 fs]; [reflexivity|].
  destruct (displayDWGFiles s3) as [[] s4]; cbn [fst snd].
  destruct (cin_int (machine s4)) as [c m5]; cbn [fst snd].
  now destruct ((c <=? 0)%Z || _).
Qed.

Lemma findODAConverter_current_path (s : State) :
  current_path (machine (snd (findODAConverter s))) = current_path (machine s).
Proof.
  destruct (find (fs_exists (machine s)) (oda_nearby (machine s))) as [p|] eqn:E.
  - now rewrite (findODAConverter_nearby s p E).
  - now rewrite (findODAConverter_far s E), search_drives_eq.
Qed.

Lemma Forall_searching_iterate (drives : list string) :
  Forall searching (map EvIterate drives).
Proof. induction drives; simpl; constructor; auto. exact I. Qed.

Lemma findODAConverter_searching (s : State) :
  exists evs, log (machine (snd (findODAConverter s))) = log (machine s) ++ evs
              /\ Forall searching evs.
Proof.
  destruct (find (fs_exists (machine s)) (oda_nearby (machine s))) as [p|] eqn:E.
  - rewrite (findODAConverter_nearby s p E). exists []. cbn [snd machine].
    now rewrite app_nil_r.
  - rewrite (findODAConverter_far s E), search_drives_eq. cbn [snd machine].
    rewrite emits_emits. eexists. split; [reflexivity|].
    constructor; [exact I|apply Forall_searching_iterate].
Qed.

Lemma findPythonRenderer_same (s s' : State) :
  volumes (machine s') = volumes (machine s) ->
  current_path (machine s') = current_path (machine s) ->
  fst (findPythonRenderer s') = fst (findPythonRenderer s).
Proof.
  intros Hv Hc. unfold findPythonRenderer, bind, ask, update, ret.
  rewrite Hc.
  rewrite (fs_exists_same _ _ Hv (current_path (machine s) // renderer_name)).
  destruct (fs_exists (machine s) (current_path (machine s) // renderer_name));
    cbv beta; [reflexivity|].
  rewrite (fs_exists_same _ _ Hv
             (parent_path (current_path (machine s)) // renderer_name)).
  now destruct (fs_exists (machine s)
                  (parent_path (current_path (machine s)) // renderer_name)).
Qed.

(** X16. Without dxf_renderer.py in the current directory or its parent
    the run ends right after the search for the converter, found or not:
    [run] returns [false] in the state that search left, so no drawing is
    looked for, nothing is listed and no number is read. *)
Theorem run_without_renderer :
  forall s : State,
    fs_exists (machine s) (current_path (machine s) // renderer_name) = false ->
    fs_exists (machine s) (parent_path (current_path (machine s)) // renderer_name)
    = false ->
    run s = (false, snd (findODAConverter s)).
Proof.
  intros s Hcur Hpar. rewrite run_steps, choose_file_cases.
  destruct (fst (findODAConverter s)); cbn [negb]; [|reflexivity].
  destruct (findODAConverter_quiet s) as [(V & _) _].
  pose proof (findODAConverter_current_path s) as C.
  rewrite (findPythonRenderer_miss (snd (findODAConverter s))).
  - reflexivity.
  - now rewrite C, (fs_exists_same _ _ V).
  - now rewrite C, (fs_exists_same _ _ V).
Qed.

Lemma run_without_renderer_witness :
  let s := Scenario.decoy_then_converter in
  fst (findODAConverter s) = true
  /\ run s = (false, snd (findODAConverter s)).
Proof.
  split; [reflexivity|].
  apply (run_without_renderer Scenario.decoy_then_converter); reflexivity.
Defined.

(** There the converter is found by the drive walk, and the run ends with
    the log of that walk alone: no second enumeration for a scan. *)
Example run_without_renderer_converter_found :
  run Scenario.decoy_then_converter
  = (false,
     mkState
       (emits [EvGetLogicalDrives; EvIterate "D:\"]
          (machine Scenario.decoy_then_converter))
       (set_oda_converter_path (mkpath "D:\" ["oda"; "ODAFileConverter.exe"])
          Scenario.fresh)).
Proof. vm_compute. reflexivity. Qed.

Lemma findAllDWGFiles_searching (s : State) :
  exists evs, log (machine (snd (findAllDWGFiles s))) = log (machine s) ++ evs
              /\ Forall searching evs.
Proof.
  rewrite findAllDWGFiles_eq. cbn [snd machine emits log].
  eexists. split; [reflexivity|].
  constructor; [exact I|apply Forall_searching_iterate].
Qed.

Lemma choose_file_without_drawings (s : State) :
  candidates (machine s) = [] ->
  fst (choose_file s) = None
  /\ cin (machine (snd (choose_file s))) = cin (machine s)
  /\ children (machine (snd (choose_file s))) = children (machine s)
  /\ exists evs, log (machine (snd (choose_file s))) = log (machine s) ++ evs
                 /\ Forall searching evs.
Proof.
  intros Hnone. unfold choose_file, bind, ret.
  destruct (findODAConverter_quiet s) as [Q1 _].
  destruct (findODAConverter_searching s) as (e1 & L1 & F1).
  destruct (findODAConverter s) as [[] s1]; cbn [negb fst snd] in *.
  2: { destruct Q1 as (_ & C & K & _).
       split; [reflexivity|]. split; [exact C|]. split; [exact K|].
       exists e1. split; [exact L1|exact F1]. }
  pose proof (findPythonRenderer_unchanged s1) as M2.
  destruct (findPythonRenderer s1) as [[] s2]; cbn [negb fst snd] in *.
  2: { rewrite M2. destruct Q1 as (_ & C & K & _).
       split; [reflexivity|]. split; [exact C|]. split; [exact K|].
       exists e1. split; [exact L1|exact F1]. }
  destruct (findAllDWGFiles_quiet s2) as [Q3 F3].
  destruct (findAllDWGFiles_searching s2) as (e3 & L3 & F3').
  rewrite (candidates_same (machine s2) (machine s)) in F3
    by (rewrite M2; apply Q1).
  rewrite Hnone in F3.
  destruct (findAllDWGFiles s2) as [[] s3]; cbn [fst snd] in *.
  unfold field. rewrite F3.
  destruct Q1 as (_ & C1 & K1 & _). destruct Q3 as (_ & C3 & K3 & _).
  cbn [fst snd].
  split; [reflexivity|]. split; [congruence|]. split; [congruence|].
  exists (e1 ++ e3). rewrite L3, M2, L1, app_assoc. split; [reflexivity|].
  apply Forall_app. now split.
Qed.

(** X17. When the scan finds no drawing, [run] returns [false] without
    prompting: console input is left unread, no child process is started,
    nothing is listed, and the only system calls made are drive
    enumerations and walks. *)
Theorem run_without_drawings :
  forall s : State,
    all_dwg_files (self (snd (findAllDWGFiles s))) = [] ->
    fst (run s) = false
    /\ cin (machine (snd (run s))) = cin (machine s)
    /\ children (machine (snd (run s))) = children (machine s)
    /\ exists evs, log (machine (snd (run s))) = log (machine s) ++ evs
                   /\ Forall searching evs.
Proof.
  intros s Hnone. destruct (findAllDWGFiles_quiet s) as [_ Hc]. rewrite Hc in Hnone.
  destruct (choose_file_without_drawings s Hnone) as (Hf & C & K & L).
  rewrite run_steps, Hf. cbn [fst snd]. auto.
Qed.

Lemma run_without_drawings_witness :
  let s := Scenario.on_D [Scenario.tools] ["tools"] [5%Z] [] in
  fst (run s) = false
  /\ cin (machine (snd (run s))) = cin (machine s)
  /\ children (machine (snd (run s))) = children (machine s)
  /\ exists evs, log (machine (snd (run s))) = log (machine s) ++ evs
                 /\ Forall searching evs.
Proof.
  apply (run_without_drawings (Scenario.on_D [Scenario.tools] ["tools"] [5%Z] [])).
  reflexivity.
Defined.

Lemma choose_file_selects (s : State) :
  fst (findODAConverter s) = true ->
  fst (findPythonRenderer s) = true ->
  (1 <= fst (cin_int (machine s)) <= Z.of_nat (List.length (candidates (machine s))))%Z ->
  fst (choose_file s)
  = Some (nth (Z.to_nat (fst (cin_int (machine s)) - 1)) (candidates (machine s))
            empty_path)
  /\ all_dwg_files (self (snd (choose_file s))) = candidates (machine s).
Proof.
  intros Hoda Hpy Hc. unfold choose_file, bind, ret.
  destruct (findODAConverter_quiet s) as [Q1 _].
  pose proof (findODAConverter_current_path s) as C1.
  destruct (findODAConverter s) as [[] s1]; cbn [negb fst snd] in *; [|discriminate].
  pose proof (findPythonRenderer_same s s1 (proj1 Q1) C1) as Hsame.
  pose proof (findPythonRenderer_unchanged s1) as M2.
  rewrite Hpy in Hsame.
  destruct (findPythonRenderer s1) as [[] s2]; cbn [negb fst snd] in *; [|discriminate].
  destruct (findAllDWGFiles_quiet s2) as [Q3 F3].
  rewrite (candidates_same (machine s2) (machine s)) in F3
    by (rewrite M2; apply Q1).
  destruct (findAllDWGFiles s2) as [[] s3]; cbn [fst snd] in *.
  unfold field. rewrite F3.
  destruct (candidates (machine s)) as [|f0 fs] eqn:Ecand; [cbn in Hc; lia|].
  destruct (displayDWGFiles_quiet s3) as [Q4 F4].
  destruct (displayDWGFiles s3) as [[] s4]; cbn [fst snd] in *.
  assert (Hcin : cin (machine s4) = cin (machine s)).
  { destruct Q4 as (_ & C4 & _). destruct Q3 as (_ & C3 & _).
    destruct Q1 as (_ & C1' & _). rewrite C4, C3, M2. exact C1'. }
  pose proof (cin_int_same _ _ Hcin) as EC.
  unfold sys. destruct (cin_int (machine s4)) as [c m5]; cbn [fst snd] in *.
  subst c.
  destruct ((fst (cin_int (machine s)) <=? 0)%Z || _) eqn:Hrej.
  - apply rejected_iff in Hrej; [lia|apply cin_int_range].
  - cbn [fst snd self]. split; [reflexivity|]. now rewrite F4.
Qed.

Lemma convert_file_frame (f : path) (s : State) :
  all_dwg_files (self (snd (convert_file f s))) = all_dwg_files (self s)
  /\ output_dxf_dir (self (snd (convert_file f s))) = parent_path f // "convertedDXF".
Proof.
  rewrite convert_file_cases.
  unfold convertDWGtoDXF, renderDXFtoPDF, bind, update, field, sys, ask, ret.
  cbn [machine self output_dxf_dir set_output_dxf_dir create_directories snd fst
         oda_converter_path].
  unfold CreateProcessW.
  cbn [children emit with_volumes volumes current_path cin log].
  destruct (children (machine s)) as [|[pi|] rest]; cbn [fst snd];
    try (split; reflexivity).
  unfold WaitForSingleObject. cbn [fst snd machine self].
  match goal with
  | |- context [if fs_exists ?m ?q then _ else _] => destruct (fs_exists m q)
  end; cbn [fst snd machine self children]; [|split; reflexivity].
  cbn [output_pdf_dir set_output_pdf_dir python_renderer_path emit with_volumes
         volumes current_path cin children log].
  destruct rest as [|[pi2|] rest2]; cbn [fst snd]; try (split; reflexivity).
  match goal with
  | |- context [if ?b && fs_exists ?m ?q then _ else _] =>
      destruct (b && fs_exists m q)
  end; split; reflexivity.
Qed.

Lemma findPythonRenderer_oda (s : State) :
  oda_converter_path (self (snd (findPythonRenderer s))) = oda_converter_path (self s).
Proof.
  unfold findPythonRenderer, bind, ask, update, ret.
  repeat match goal with
         | |- context [fs_exists ?m ?q] => destruct (fs_exists m q)
         end; reflexivity.
Qed.

Lemma findAllDWGFiles_oda (s : State) :
  oda_converter_path (self (snd (findAllDWGFiles s))) = oda_converter_path (self s).
Proof. rewrite findAllDWGFiles_eq. reflexivity. Qed.

(** Steps 2 to 5 leave the path of the converter as step 1 set it. *)
Lemma choose_file_oda (s : State) :
  oda_converter_path (self (snd (choose_file s)))
  = oda_converter_path (self (snd (findODAConverter s))).
Proof.
  unfold choose_file, bind, ret.
  destruct (findODAConverter s) as [[] s1]; cbn [negb fst snd]; [|reflexivity].
  pose proof (findPythonRenderer_oda s1) as H2.
  destruct (findPythonRenderer s1) as [[] s2]; cbn [negb fst snd] in *; [|exact H2].
  pose proof (findAllDWGFiles_oda s2) as H3.
  destruct (findAllDWGFiles s2) as [[] s3]; cbn [fst snd] in *.
  unfold field. destruct (all_dwg_files (self s3)) as [|f0 fs]; [cbn [snd]; congruence|].
  destruct (displayDWGFiles_quiet s3) as [_ F4].
  destruct (displayDWGFiles s3) as [[] s4]; cbn [fst snd] in *.
  unfold sys. destruct (cin_int (machine s4)) as [c m5].
  destruct ((c <=? 0)%Z || _); cbn [snd self]; congruence.
Qed.

(** Stage 1 begins by making convertedDXF beside [dwg_file] and starting
    the converter on [dwg_file]. *)
Lemma convertDWGtoDXF_log_start (dwg_file output_dxf : path) (s : State) :
  exists rest,
    log (machine (snd (convertDWGtoDXF dwg_file output_dxf s)))
    = log (machine s)
      ++ EvCreateDirectories (parent_path dwg_file // "convertedDXF")
         :: EvCreateProcess (converter_command (oda_converter_path (self s)) dwg_file)
              (Some (parent_path (oda_converter_path (self s))))
         :: rest.
Proof.
  unfold convertDWGtoDXF, converter_command, bind, update, field, sys, ask, ret.
  cbn [machine self output_dxf_dir set_output_dxf_dir create_directories snd fst
         oda_converter_path].
  unfold CreateProcessW.
  cbn [children emit with_volumes volumes current_path cin log].
  destruct (children (machine s)) as [|[pi|] rest1];
    unfold WaitForSingleObject;
    cbn [snd fst self machine log emit with_volumes volumes current_path cin children];
    repeat match goal with
           | |- context [if fs_exists ?m ?q then _ else _] => destruct (fs_exists m q)
           end;
    cbn [snd fst self machine log emit with_volumes volumes current_path cin children];
    eexists; rewrite <- ?app_assoc; cbn [app]; reflexivity.
Qed.

Lemma renderDXFtoPDF_log (dxf_file dwg_file : path) (s : State) :
  exists evs,
    log (machine (snd (renderDXFtoPDF dxf_file dwg_file s))) = log (machine s) ++ evs.
Proof.
  destruct (renderDXFtoPDF_cases dxf_file dwg_file s) as (_ & _ & cmd & H).
  destruct (children (machine s)) as [|[pi|] rest]; destruct H as (_ & _ & ->);
    eexists; reflexivity.
Qed.

Lemma convert_file_log_start (f : path) (s : State) :
  exists rest,
    log (machine (snd (convert_file f s)))
    = log (machine s)
      ++ EvCreateDirectories (parent_path f // "convertedDXF")
         :: EvCreateProcess (converter_command (oda_converter_path (self s)) f)
              (Some (parent_path (oda_converter_path (self s))))
         :: rest.
Proof.
  rewrite convert_file_cases.
  destruct (convertDWGtoDXF_log_start f empty_path s) as (rest1 & L1).
  destruct (fst (fst (convertDWGtoDXF f empty_path s))).
  - destruct (renderDXFtoPDF_log (snd (fst (convertDWGtoDXF f empty_path s))) f
                (snd (convertDWGtoDXF f empty_path s))) as (evs2 & L2).
    rewrite L2, L1, <- app_assoc. cbn [app]. now exists (rest1 ++ evs2).
  - cbn [snd]. now exists rest1.
Qed.

Lemma convert_file_oda (f : path) (s : State) :
  oda_converter_path (self (snd (convert_file f s))) = oda_converter_path (self s).
Proof.
  rewrite convert_file_cases.
  unfold convertDWGtoDXF, renderDXFtoPDF, bind, update, field, sys, ask, ret.
  cbn [machine self output_dxf_dir set_output_dxf_dir create_directories snd fst
         oda_converter_path].
  unfold CreateProcessW.
  cbn [children emit with_volumes volumes current_path cin log].
  destruct (children (machine s)) as [|[pi|] rest]; cbn [fst snd]; try reflexivity.
  unfold WaitForSingleObject. cbn [fst snd machine self].
  match goal with
  | |- context [if fs_exists ?m ?q then _ else _] => destruct (fs_exists m q)
  end; cbn [fst snd machine self children]; [|reflexivity].
  cbn [output_pdf_dir set_output_pdf_dir python_renderer_path emit with_volumes
         volumes current_path cin children log].
  destruct rest as [|[pi2|] rest2]; cbn [fst snd]; try reflexivity.
  match goal with
  | |- context [if ?b && fs_exists ?m ?q then _ else _] =>
      destruct (b && fs_exists m q)
  end; reflexivity.
Qed.

(** X18. With both tools found and a number [c] between 1 and the length
    of the candidate list, the run enters stage 1 for the file [f] at
    index [c - 1] of the list sorted by file name: right after locating,
    scanning and listing it makes the directory convertedDXF beside [f]
    and starts the converter found in step 1 with the command line built
    for [f] (the directory of [f], that output directory, and the file
    name of [f]).  [output_dxf_dir] ends as that directory, the converter
    path is still the one step 1 stored, and the candidate list is still
    the one the scan gave. *)
Theorem run_converts_selected_file :
  forall s : State,
    fst (findODAConverter s) = true ->
    fst (findPythonRenderer s) = true ->
    let c := fst (cin_int (machine s)) in
    let files := all_dwg_files (self (snd (findAllDWGFiles s))) in
    (1 <= c <= Z.of_nat (List.length files))%Z ->
    let f := nth (Z.to_nat (c - 1)) files empty_path in
    let oda := oda_converter_path (self (snd (findODAConverter s))) in
    (exists q rest,
        Forall quiet q
        /\ log (machine (snd (run s)))
           = log (machine s) ++ q
             ++ EvCreateDirectories (parent_path f // "convertedDXF")
                :: EvCreateProcess (converter_command oda f) (Some (parent_path oda))
                :: rest)
    /\ output_dxf_dir (self (snd (run s))) = parent_path f // "convertedDXF"
    /\ oda_converter_path (self (snd (run s))) = oda
    /\ all_dwg_files (self (snd (run s))) = files.
Proof.
  intros s Hoda Hpy c files Hc f oda. subst c files f oda.
  destruct (findAllDWGFiles_quiet s) as [_ Hcand]. rewrite Hcand in Hc |- *.
  destruct (choose_file_selects s Hoda Hpy Hc) as [Hsel Hlist].
  rewrite run_steps, Hsel.
  remember (nth (Z.to_nat (fst (cin_int (machine s)) - 1)) (candidates (machine s))
              empty_path) as f eqn:Ef. clear Ef.
  destruct (convert_file_frame f (snd (choose_file s))) as [Hfiles Hdir].
  destruct (convert_file_log_start f (snd (choose_file s))) as (rest & L).
  destruct (choose_file_log s) as (q & Lq & Fq).
  pose proof (choose_file_oda s) as Ho.
  pose proof (convert_file_oda f (snd (choose_file s))) as Ho'.
  split; [|split; [exact Hdir|split; congruence]].
  exists q, rest. split; [exact Fq|].
  rewrite L, Lq, Ho, <- app_assoc. reflexivity.
Qed.

Lemma run_converts_selected_file_witness :
  let s := Scenario.on_D
             [Dir "proj" Readable [File "a.dwg"; File "b.dwg"]; Scenario.tools]
             ["tools"] [2%Z] [Some (Exits 0 [])] in
  let f := mkpath "D:\" ["proj"; "b.dwg"] in
  let oda := mkpath "D:\" ["tools"; "ODAFileConverter.exe"] in
  (exists q rest,
      Forall quiet q
      /\ log (machine (snd (run s)))
         = log (machine s) ++ q
           ++ EvCreateDirectories (parent_path f // "convertedDXF")
              :: EvCreateProcess (converter_command oda f) (Some (parent_path oda))
              :: rest)
  /\ output_dxf_dir (self (snd (run s))) = parent_path f // "convertedDXF"
  /\ oda_converter_path (self (snd (run s))) = oda
  /\ all_dwg_files (self (snd (run s)))
     = all_dwg_files (self (snd (findAllDWGFiles s))).
Proof.
  apply (run_converts_selected_file
           (Scenario.on_D
              [Dir "proj" Readable [File "a.dwg"; File "b.dwg"]; Scenario.tools]
              ["tools"] [2%Z] [Some (Exits 0 [])]));
    [reflexivity|reflexivity|vm_compute; split; discriminate].
Defined.

(** In one directory the two choices differ in the file the converter is
    started on, not in the output directory. *)
Example choices_in_one_directory :
  let s := fun c => Scenario.on_D
                      [Dir "proj" Readable [File "a.dwg"; File "b.dwg"]; Scenario.tools]
                      ["tools"] [c] [] in
  let started := fun c =>
    converter_command (mkpath "D:\" ["tools"; "ODAFileConverter.exe"])
      (mkpath "D:\" ["proj"; c]) in
  nth 4 (log (machine (snd (run (s 1%Z))))) EvGetLogicalDrives
  = EvCreateProcess (started "a.dwg") (Some (mkpath "D:\" ["tools"]))
  /\ nth 4 (log (machine (snd (run (s 2%Z))))) EvGetLogicalDrives
     = EvCreateProcess (started "b.dwg") (Some (mkpath "D:\" ["tools"]))
  /\ output_dxf_dir (self (snd (run (s 1%Z))))
     = output_dxf_dir (self (snd (run (s 2%Z)))).
Proof. vm_compute. repeat split. Qed.

(** X19. A run never changes the candidate list once the scan has built
    it: at the end the list is the one a scan of the machine gives, or,
    when the run ended before the scan, the one the object held. *)
Theorem run_keeps_candidate_list :
  forall s : State,
    all_dwg_files (self (snd (run s))) = all_dwg_files (self (snd (findAllDWGFiles s)))
    \/ all_dwg_files (self (snd (run s))) = all_dwg_files (self s).
Proof.
  intros s. destruct (findAllDWGFiles_quiet s) as [_ ->].
  rewrite run_steps.
  destruct (choose_file_inv s) as (s4 & Q & [(Hnone & Hsnd & Hfiles)|(Hfiles & Hsnd & _)]).
  - rewrite Hnone, Hsnd. cbn [snd]. tauto.
  - assert (Hl : all_dwg_files (self (snd (choose_file s))) = candidates (machine s))
      by (rewrite Hsnd; exact Hfiles).
    destruct (fst (choose_file s)) as [f|]; [|left; exact Hl].
    left. destruct (convert_file_frame f (snd (choose_file s))) as [-> _]. exact Hl.
Qed.
